(** * The upload form controller of [static/app.js]

    A shallow embedding of the browser-side controller: the page elements
    the script holds, its two module variables, the helper functions and
    the event listeners, followed by the properties of the controller. *)

From Stdlib Require Import ZArith QArith Qminmax Lqa Lia String List.
From stdpp Require Import base option gmap strings.

Local Open Scope string_scope.
Set Warnings "-register-all".

(** ** JavaScript values *)

Module JS.

(** The values a response body can hold once [JSON.parse] has run, plus
    [undefined], which reading a missing property gives.  A number is kept
    as the decimal text that JavaScript's number-to-string conversion gives
    it (["42"], ["1.5"], ["0"] for both zeros): truthiness and display are
    all the controller ever asks of a number from a body.  An object is its
    list of own properties; [JSON.parse] leaves one entry per key. *)
Inductive Value : Type :=
| Undefined
| Null
| Bool (b : bool)
| Num (text : string)
| Str (s : string)
| Arr (items : list Value)
| Obj (props : list (string * Value)).

(** ToBoolean. *)
Definition to_boolean (v : Value) : bool :=
  match v with
  | Undefined | Null => false
  | Bool b => b
  | Num t => negb (String.eqb t "0")
  | Str s => negb (String.eqb s "")
  | Arr _ | Obj _ => true
  end.

(** Does the list of own properties hold the key? *)
Definition has_own (props : list (string * Value)) (k : string) : bool :=
  existsb (fun kv => String.eqb (fst kv) k) props.

(** The texts of the elements of an array, if every conversion gave one. *)
Fixpoint all_texts (texts : list (option string)) : option (list string) :=
  match texts with
  | [] => Some []
  | Some t :: rest =>
      match all_texts rest with
      | Some ts => Some (t :: ts)
      | None => None
      end
  | None :: _ => None
  end.

(** ToString; [None] stands for the [TypeError] it throws.  An object
    from a parsed body converts through [Object.prototype.toString]
    unless it has an own [toString] property: a parsed value is never
    callable, so that property hides the inherited method, [valueOf]
    gives no primitive either, and the conversion throws.  An array joins
    its elements with commas, [null] and [undefined] elements giving the
    empty text, and throws when the conversion of an element does. *)
Fixpoint to_string (v : Value) : option string :=
  match v with
  | Undefined => Some "undefined"
  | Null => Some "null"
  | Bool true => Some "true"
  | Bool false => Some "false"
  | Num t => Some t
  | Str s => Some s
  | Arr items =>
      match all_texts
              (map (fun x => match x with
                             | Undefined | Null => Some ""
                             | _ => to_string x
                             end) items) with
      | Some texts => Some (String.concat "," texts)
      | None => None
      end
  | Obj props =>
      if has_own props "toString" then None else Some "[object Object]"
  end.

(** [a || b] *)
Definition or (a b : Value) : Value := if to_boolean a then a else b.

(** [a ?? b] *)
Definition nullish (a b : Value) : Value :=
  match a with
  | Undefined | Null => b
  | _ => a
  end.

(** [v === "s"] for a string literal. *)
Definition is_string (v : Value) (s : string) : bool :=
  match v with
  | Str t => String.eqb t s
  | _ => false
  end.

Fixpoint lookup_prop (props : list (string * Value)) (k : string) : Value :=
  match props with
  | [] => Undefined
  | (k', v) :: rest => if String.eqb k' k then v else lookup_prop rest k
  end.

(** What [v.k] evaluates to when it does not throw.  The controller reads
    [status], [message], [row_count], [output_path] and [download_url];
    no prototype defines any of them, so only an object's own properties
    can answer. *)
Definition field (v : Value) (k : string) : Value :=
  match v with
  | Obj props => lookup_prop props k
  | _ => Undefined
  end.

(** The text assigning [v] to [textContent] writes: a nullable string
    attribute, so [null] and [undefined] give the empty text and any
    other value goes through ToString, which may throw. *)
Definition text_of (v : Value) : option string :=
  match v with
  | Undefined | Null => Some ""
  | _ => to_string v
  end.

(** The numbers the progress bar computes with: finite ones are kept as
    exact rationals (the rounding of binary64 is not modelled), together
    with the two non-finite results the division [loaded / total] has
    when [total] is zero. *)
Inductive Number : Type :=
| Fin (q : Q)
| Infinity
| NaN.

(** [a / b] on two non-negative integers. *)
Definition div (a b : N) : Number :=
  match b with
  | N0 => match a with N0 => NaN | _ => Infinity end
  | _ => Fin (inject_Z (Z.of_N a) / inject_Z (Z.of_N b))
  end.

(** [x * k] for a positive finite [k]. *)
Definition mul_pos (x : Number) (k : Q) : Number :=
  match x with
  | Fin q => Fin (q * k)
  | Infinity => Infinity
  | NaN => NaN
  end.

(** [Math.max(k, x)] and [Math.min(k, x)] for a finite [k]. *)
Definition max (k : Q) (x : Number) : Number :=
  match x with
  | Fin q => Fin (Qmax k q)
  | Infinity => Infinity
  | NaN => NaN
  end.

Definition min (k : Q) (x : Number) : Number :=
  match x with
  | Fin q => Fin (Qmin k q)
  | Infinity => Fin k
  | NaN => NaN
  end.

End JS.

(** ** The page *)

(** A file chosen in a file input; the controller reads its [name] only. *)
Record File : Type := { name : string }.

(** One [XMLHttpRequest] after [open] and [send]. *)
Record Request : Type := {
  method : string;
  url : string;
  async : bool;
  formData : list (string * File)
}.

(** An interval the host has running for [startProgress]: the [progress]
    variable its callback closed over, and its period in milliseconds. *)
Record Interval : Type := {
  closure_progress : Q;
  interval_delay : Z
}.

(** Everything the script reads or writes: the properties of the page
    elements it looked up, its two module variables [downloadUrl] and
    [progressTimer], the intervals the host has running (each with the
    [progress] variable its callback closed over), the requests sent and
    the text last handed to [window.location.href].  The width of the progress
    bar is kept as the number in front of the percent sign. *)
Record Page : Type := {
  salesInput_files : list File;
  peopleInput_files : list File;
  salesName_textContent : string;
  peopleName_textContent : string;
  statusText_textContent : string;
  progressFill_width : Q;
  rowCount_textContent : string;
  outputPath_textContent : string;
  downloadButton_disabled : bool;
  runButton_disabled : bool;
  downloadUrl : JS.Value;
  progressTimer : option positive;
  intervals : gmap positive Interval;
  sent : list Request;
  location_href : string
}.

Definition set_salesName (t : string) (p : Page) : Page :=
  {| salesInput_files := salesInput_files p;
     peopleInput_files := peopleInput_files p;
     salesName_textContent := t;
     peopleName_textContent := peopleName_textContent p;
     statusText_textContent := statusText_textContent p;
     progressFill_width := progressFill_width p;
     rowCount_textContent := rowCount_textContent p;
     outputPath_textContent := outputPath_textContent p;
     downloadButton_disabled := downloadButton_disabled p;
     runButton_disabled := runButton_disabled p;
     downloadUrl := downloadUrl p;
     progressTimer := progressTimer p;
     intervals := intervals p;
     sent := sent p;
     location_href := location_href p |}.

Definition set_peopleName (t : string) (p : Page) : Page :=
  {| salesInput_files := salesInput_files p;
     peopleInput_files := peopleInput_files p;
     salesName_textContent := salesName_textContent p;
     peopleName_textContent := t;
     statusText_textContent := statusText_textContent p;
     progressFill_width := progressFill_width p;
     rowCount_textContent := rowCount_textContent p;
     outputPath_textContent := outputPath_textContent p;
     downloadButton_disabled := downloadButton_disabled p;
     runButton_disabled := runButton_disabled p;
     downloadUrl := downloadUrl p;
     progressTimer := progressTimer p;
     intervals := intervals p;
     sent := sent p;
     location_href := location_href p |}.

Definition set_statusText (t : string) (p : Page) : Page :=
  {| salesInput_files := salesInput_files p;
     peopleInput_files := peopleInput_files p;
     salesName_textContent := salesName_textContent p;
     peopleName_textContent := peopleName_textContent p;
     statusText_textContent := t;
     progressFill_width := progressFill_width p;
     rowCount_textContent := rowCount_textContent p;
     outputPath_textContent := outputPath_textContent p;
     downloadButton_disabled := downloadButton_disabled p;
     runButton_disabled := runButton_disabled p;
     downloadUrl := downloadUrl p;
     progressTimer := progressTimer p;
     intervals := intervals p;
     sent := sent p;
     location_href := location_href p |}.

Definition set_width (w : Q) (p : Page) : Page :=
  {| salesInput_files := salesInput_files p;
     peopleInput_files := peopleInput_files p;
     salesName_textContent := salesName_textContent p;
     peopleName_textContent := peopleName_textContent p;
     statusText_textContent := statusText_textContent p;
     progressFill_width := w;
     rowCount_textContent := rowCount_textContent p;
     outputPath_textContent := outputPath_textContent p;
     downloadButton_disabled := downloadButton_disabled p;
     runButton_disabled := runButton_disabled p;
     downloadUrl := downloadUrl p;
     progressTimer := progressTimer p;
     intervals := intervals p;
     sent := sent p;
     location_href := location_href p |}.

Definition set_rowCount (t : string) (p : Page) : Page :=
  {| salesInput_files := salesInput_files p;
     peopleInput_files := peopleInput_files p;
     salesName_textContent := salesName_textContent p;
     peopleName_textContent := peopleName_textContent p;
     statusText_textContent := statusText_textContent p;
     progressFill_width := progressFill_width p;
     rowCount_textContent := t;
     outputPath_textContent := outputPath_textContent p;
     downloadButton_disabled := downloadButton_disabled p;
     runButton_disabled := runButton_disabled p;
     downloadUrl := downloadUrl p;
     progressTimer := progressTimer p;
     intervals := intervals p;
     sent := sent p;
     location_href := location_href p |}.

Definition set_outputPath (t : string) (p : Page) : Page :=
  {| salesInput_files := salesInput_files p;
     peopleInput_files := peopleInput_files p;
     salesName_textContent := salesName_textContent p;
     peopleName_textContent := peopleName_textContent p;
     statusText_textContent := statusText_textContent p;
     progressFill_width := progressFill_width p;
     rowCount_textContent := rowCount_textContent p;
     outputPath_textContent := t;
     downloadButton_disabled := downloadButton_disabled p;
     runButton_disabled := runButton_disabled p;
     downloadUrl := downloadUrl p;
     progressTimer := progressTimer p;
     intervals := intervals p;
     sent := sent p;
     location_href := location_href p |}.

Definition set_downloadButton_disabled (b : bool) (p : Page) : Page :=
  {| salesInput_files := salesInput_files p;
     peopleInput_files := peopleInput_files p;
     salesName_textContent := salesName_textContent p;
     peopleName_textContent := peopleName_textContent p;
     statusText_textContent := statusText_textContent p;
     progressFill_width := progressFill_width p;
     rowCount_textContent := rowCount_textContent p;
     outputPath_textContent := outputPath_textContent p;
     downloadButton_disabled := b;
     runButton_disabled := runButton_disabled p;
     downloadUrl := downloadUrl p;
     progressTimer := progressTimer p;
     intervals := intervals p;
     sent := sent p;
     location_href := location_href p |}.

Definition set_runButton_disabled (b : bool) (p : Page) : Page :=
  {| salesInput_files := salesInput_files p;
     peopleInput_files := peopleInput_files p;
     salesName_textContent := salesName_textContent p;
     peopleName_textContent := peopleName_textContent p;
     statusText_textContent := statusText_textContent p;
     progressFill_width := progressFill_width p;
     rowCount_textContent := rowCount_textContent p;
     outputPath_textContent := outputPath_textContent p;
     downloadButton_disabled := downloadButton_disabled p;
     runButton_disabled := b;
     downloadUrl := downloadUrl p;
     progressTimer := progressTimer p;
     intervals := intervals p;
     sent := sent p;
     location_href := location_href p |}.

Definition set_downloadUrl (v : JS.Value) (p : Page) : Page :=
  {| salesInput_files := salesInput_files p;
     peopleInput_files := peopleInput_files p;
     salesName_textContent := salesName_textContent p;
     peopleName_textContent := peopleName_textContent p;
     statusText_textContent := statusText_textContent p;
     progressFill_width := progressFill_width p;
     rowCount_textContent := rowCount_textContent p;
     outputPath_textContent := outputPath_textContent p;
     downloadButton_disabled := downloadButton_disabled p;
     runButton_disabled := runButton_disabled p;
     downloadUrl := v;
     progressTimer := progressTimer p;
     intervals := intervals p;
     sent := sent p;
     location_href := location_href p |}.

Definition set_progressTimer (t : option positive) (p : Page) : Page :=
  {| salesInput_files := salesInput_files p;
     peopleInput_files := peopleInput_files p;
     salesName_textContent := salesName_textContent p;
     peopleName_textContent := peopleName_textContent p;
     statusText_textContent := statusText_textContent p;
     progressFill_width := progressFill_width p;
     rowCount_textContent := rowCount_textContent p;
     outputPath_textContent := outputPath_textContent p;
     downloadButton_disabled := downloadButton_disabled p;
     runButton_disabled := runButton_disabled p;
     downloadUrl := downloadUrl p;
     progressTimer := t;
     intervals := intervals p;
     sent := sent p;
     location_href := location_href p |}.

Definition set_intervals (m : gmap positive Interval) (p : Page) : Page :=
  {| salesInput_files := salesInput_files p;
     peopleInput_files := peopleInput_files p;
     salesName_textContent := salesName_textContent p;
     peopleName_textContent := peopleName_textContent p;
     statusText_textContent := statusText_textContent p;
     progressFill_width := progressFill_width p;
     rowCount_textContent := rowCount_textContent p;
     outputPath_textContent := outputPath_textContent p;
     downloadButton_disabled := downloadButton_disabled p;
     runButton_disabled := runButton_disabled p;
     downloadUrl := downloadUrl p;
     progressTimer := progressTimer p;
     intervals := m;
     sent := sent p;
     location_href := location_href p |}.

Definition set_sent (l : list Request) (p : Page) : Page :=
  {| salesInput_files := salesInput_files p;
     peopleInput_files := peopleInput_files p;
     salesName_textContent := salesName_textContent p;
     peopleName_textContent := peopleName_textContent p;
     statusText_textContent := statusText_textContent p;
     progressFill_width := progressFill_width p;
     rowCount_textContent := rowCount_textContent p;
     outputPath_textContent := outputPath_textContent p;
     downloadButton_disabled := downloadButton_disabled p;
     runButton_disabled := runButton_disabled p;
     downloadUrl := downloadUrl p;
     progressTimer := progressTimer p;
     intervals := intervals p;
     sent := l;
     location_href := location_href p |}.

Definition set_location_href (t : string) (p : Page) : Page :=
  {| salesInput_files := salesInput_files p;
     peopleInput_files := peopleInput_files p;
     salesName_textContent := salesName_textContent p;
     peopleName_textContent := peopleName_textContent p;
     statusText_textContent := statusText_textContent p;
     progressFill_width := progressFill_width p;
     rowCount_textContent := rowCount_textContent p;
     outputPath_textContent := outputPath_textContent p;
     downloadButton_disabled := downloadButton_disabled p;
     runButton_disabled := runButton_disabled p;
     downloadUrl := downloadUrl p;
     progressTimer := progressTimer p;
     intervals := intervals p;
     sent := sent p;
     location_href := t |}.

(** ** Running a script: state and exceptions *)

Inductive Error : Type :=
| SyntaxError
| TypeError.

(** How a piece of script ends: normally with a value, or by throwing. *)
Inductive Completion (A : Type) : Type :=
| Normal (a : A)
| Throw (e : Error).
Arguments Normal {A} a.
Arguments Throw {A} e.

(** A piece of script transforms the page and completes; what it wrote
    before throwing stays written. *)
Definition Script (A : Type) : Type := Page -> Completion A * Page.

Definition ret {A} (a : A) : Script A := fun p => (Normal a, p).

Definition bind {A B} (c : Script A) (k : A -> Script B) : Script B :=
  fun p =>
    match c p with
    | (Normal a, p') => k a p'
    | (Throw e, p') => (Throw e, p')
    end.

Definition throw {A} (e : Error) : Script A := fun p => (Throw e, p).

(** [try { c } catch { h }] *)
Definition try_catch {A} (c : Script A) (h : Script A) : Script A :=
  fun p =>
    match c p with
    | (Normal a, p') => (Normal a, p')
    | (Throw _, p') => h p'
    end.

Definition assign (f : Page -> Page) : Script unit := fun p => (Normal tt, f p).

Definition read {A} (f : Page -> A) : Script A := fun p => (Normal (f p), p).

Declare Scope script_scope.
Delimit Scope script_scope with script.
Notation "x <- c ;; k" := (bind c (fun x => k))
  (at level 100, c at next level, right associativity) : script_scope.
Notation "c ;; k" := (bind c (fun _ => k))
  (at level 100, right associativity) : script_scope.
Local Open Scope script_scope.

(** The page a script leaves behind, and whether it threw. *)
Definition after {A} (c : Script A) (p : Page) : Page := snd (c p).
Definition completion {A} (c : Script A) (p : Page) : Completion A := fst (c p).

(** ** Host functions *)

(** The body of a response, seen through [JSON.parse]: either the text
    is no JSON text and parsing throws, or it denotes a value. *)
Inductive ResponseText : Type :=
| NotJson (text : string)
| Json (v : JS.Value).

Definition JSON_parse (t : ResponseText) : Script JS.Value :=
  match t with
  | NotJson _ => throw SyntaxError
  | Json v => ret v
  end.

(** [v.k]: reading a property of [null] or [undefined] throws. *)
Definition get (v : JS.Value) (k : string) : Script JS.Value :=
  match v with
  | JS.Undefined | JS.Null => throw TypeError
  | _ => ret (JS.field v k)
  end.

(** [element.textContent = v], [write] being the setter of the element's
    text: the conversion of [v] comes first, and when it throws nothing
    is written. *)
Definition set_textContent (write : string -> Page -> Page) (v : JS.Value)
  : Script unit :=
  match JS.text_of v with
  | Some t => assign (write t)
  | None => throw TypeError
  end.

(** [window.location.href = v]: the setter converts [v] with ToString,
    which may throw; [location_href] keeps the text handed to it, which
    the host resolves against the address of the document. *)
Definition set_href (v : JS.Value) : Script unit :=
  match JS.to_string v with
  | Some t => assign (set_location_href t)
  | None => throw TypeError
  end.

(** [setInterval]: the host starts an interval under a fresh handle; the
    callback's closure variable [progress] is stored with it. *)
Definition setInterval (progress : Q) (delay : Z) : Script positive :=
  fun p =>
    let id := fresh (dom (intervals p)) in
    (Normal id,
     set_intervals
       (<[id := {| closure_progress := progress; interval_delay := delay |}]>
          (intervals p)) p).

Definition clearInterval (id : positive) : Script unit :=
  assign (fun p => set_intervals (delete id (intervals p)) p).

(** Assigning [`${v}%`] to [style.width].  The text ["NaN%"] is no CSS
    length, so the assignment is dropped and the bar keeps its width. *)
Definition set_style_width (v : JS.Number) : Script unit :=
  match v with
  | JS.Fin q => assign (set_width q)
  | JS.Infinity | JS.NaN => ret tt
  end.

(** [Math.random()]: the draw is an input of the tick that uses it. *)
Definition is_random (r : Q) : Prop := (0 <= r)%Q /\ (r < 1)%Q.

(** ** The script *)

Definition setProgress (value : JS.Number) : Script unit :=
  set_style_width (JS.min 100 (JS.max 0 value)).

Definition resetOutput : Script unit :=
  assign (set_rowCount "-") ;;
  assign (set_outputPath "-") ;;
  assign (set_downloadButton_disabled true) ;;
  assign (set_downloadUrl JS.Null).

(** One step of the interval callback's [progress] variable. *)
Definition next_progress (progress r : Q) : Q := Qmin 90 (progress + r * 8).

(** The callback [startProgress] hands to [setInterval], for the interval
    [id] and the draw [r] of [Math.random()].  A cleared interval never
    fires. *)
Definition interval_callback (id : positive) (r : Q) : Script unit :=
  running <- read (fun p => intervals p !! id) ;;
  match running with
  | None => ret tt
  | Some interval =>
      let progress := next_progress (closure_progress interval) r in
      assign (fun p =>
                set_intervals
                  (<[id := {| closure_progress := progress;
                              interval_delay := interval_delay interval |}]>
                     (intervals p)) p) ;;
      setProgress (JS.Fin progress) ;;
      assign (set_statusText "Processing...")
  end.

Definition startProgress : Script unit :=
  let progress := 5%Q in
  setProgress (JS.Fin progress) ;;
  assign (set_statusText "Uploading...") ;;
  id <- setInterval progress 500 ;;
  assign (set_progressTimer (Some id)).

Definition stopProgress : Script unit :=
  timer <- read progressTimer ;;
  match timer with
  | Some id =>
      clearInterval id ;;
      assign (set_progressTimer None)
  | None => ret tt
  end.

(** [files[0]?.name] *)
Definition first_name (files : list File) : JS.Value :=
  match files with
  | [] => JS.Undefined
  | f :: _ => JS.Str (name f)
  end.

Definition salesInput_change : Script unit :=
  files <- read salesInput_files ;;
  set_textContent set_salesName
    (JS.or (first_name files) (JS.Str "No file selected")).

Definition peopleInput_change : Script unit :=
  files <- read peopleInput_files ;;
  set_textContent set_peopleName
    (JS.or (first_name files) (JS.Str "No file selected")).

Definition downloadButton_click : Script unit :=
  target <- read downloadUrl ;;
  if JS.to_boolean target
  then set_href target
  else ret tt.

(** The argument of [xhr.upload.onprogress]. *)
Record ProgressEvent : Type := {
  lengthComputable : bool;
  loaded : N;
  total : N
}.

Definition xhr_upload_onprogress (event : ProgressEvent) : Script unit :=
  if lengthComputable event then
    let uploadProgress := JS.mul_pos (JS.div (loaded event) (total event)) 40 in
    setProgress (JS.max 5 uploadProgress) ;;
    assign (set_statusText "Uploading...")
  else ret tt.

(** What [xhr.onreadystatechange] reads from [xhr]. *)
Record XHR : Type := {
  readyState : Z;
  status : Z;
  responseText : ResponseText
}.

Definition DONE : Z := 4.

Definition xhr_onreadystatechange (xhr : XHR) : Script unit :=
  if negb (readyState xhr =? DONE)%Z then ret tt
  else
    stopProgress ;;
    assign (set_runButton_disabled false) ;;
    if negb (status xhr =? 200)%Z then
      assign (set_statusText "Error.") ;;
      try_catch
        (errorResponse <- JSON_parse (responseText xhr) ;;
         message <- get errorResponse "message" ;;
         set_textContent set_outputPath
           (JS.or message (JS.Str "Processing failed.")))
        (assign (set_outputPath "Processing failed.")) ;;
      setProgress (JS.Fin 0)
    else
      response <- JSON_parse (responseText xhr) ;;
      response_status <- get response "status" ;;
      if negb (JS.is_string response_status "ok") then
        assign (set_statusText "Error.") ;;
        message <- get response "message" ;;
        set_textContent set_outputPath
          (JS.or message (JS.Str "Processing failed.")) ;;
        setProgress (JS.Fin 0)
      else
        setProgress (JS.Fin 100) ;;
        assign (set_statusText "Completed.") ;;
        row_count <- get response "row_count" ;;
        set_textContent set_rowCount (JS.nullish row_count (JS.Str "-")) ;;
        output_path <- get response "output_path" ;;
        set_textContent set_outputPath (JS.nullish output_path (JS.Str "-")) ;;
        download_url <- get response "download_url" ;;
        assign (set_downloadUrl download_url) ;;
        assign (set_downloadButton_disabled false).

(** The [submit] listener of the form ([preventDefault] only keeps the
    browser from navigating and leaves the page as it is).  The guard on
    [files.length] is the match on an empty list of files.  The last
    statement sends the request; the two callbacks installed on [xhr] run
    later, as [xhr_upload_onprogress] and [xhr_onreadystatechange]. *)
Definition form_submit : Script unit :=
  sales <- read salesInput_files ;;
  people <- read peopleInput_files ;;
  match sales, people with
  | sales_file :: _, people_file :: _ =>
      resetOutput ;;
      assign (set_runButton_disabled true) ;;
      startProgress ;;
      let formData := [("sales_file", sales_file); ("people_file", people_file)] in
      let xhr := {| method := "POST"; url := "/process"; async := true;
                    formData := formData |} in
      assign (fun p => set_sent (sent p ++ [xhr]) p)
  | _, _ =>
      assign (set_statusText "Please select both files.")
  end.

(** ** Events *)

(** The [progress] variable of a running interval. *)
Definition progress_of (id : positive) (p : Page) : option Q :=
  closure_progress <$> intervals p !! id.

(** What the host can deliver to the script.  Choosing files changes the
    input's [files] before its [change] listener runs; a tick names the
    interval that fires and carries the draw of [Math.random()]. *)
Inductive Event : Type :=
| SalesChosen (files : list File)
| PeopleChosen (files : list File)
| DownloadClick
| Submit
| Tick (id : positive) (r : Q)
| UploadProgress (event : ProgressEvent)
| ReadyStateChange (xhr : XHR).

Definition set_salesInput_files (files : list File) (p : Page) : Page :=
  {| salesInput_files := files;
     peopleInput_files := peopleInput_files p;
     salesName_textContent := salesName_textContent p;
     peopleName_textContent := peopleName_textContent p;
     statusText_textContent := statusText_textContent p;
     progressFill_width := progressFill_width p;
     rowCount_textContent := rowCount_textContent p;
     outputPath_textContent := outputPath_textContent p;
     downloadButton_disabled := downloadButton_disabled p;
     runButton_disabled := runButton_disabled p;
     downloadUrl := downloadUrl p;
     progressTimer := progressTimer p;
     intervals := intervals p;
     sent := sent p;
     location_href := location_href p |}.

Definition set_peopleInput_files (files : list File) (p : Page) : Page :=
  {| salesInput_files := salesInput_files p;
     peopleInput_files := files;
     salesName_textContent := salesName_textContent p;
     peopleName_textContent := peopleName_textContent p;
     statusText_textContent := statusText_textContent p;
     progressFill_width := progressFill_width p;
     rowCount_textContent := rowCount_textContent p;
     outputPath_textContent := outputPath_textContent p;
     downloadButton_disabled := downloadButton_disabled p;
     runButton_disabled := runButton_disabled p;
     downloadUrl := downloadUrl p;
     progressTimer := progressTimer p;
     intervals := intervals p;
     sent := sent p;
     location_href := location_href p |}.

Definition listener (e : Event) : Script unit :=
  match e with
  | SalesChosen files => assign (set_salesInput_files files) ;; salesInput_change
  | PeopleChosen files => assign (set_peopleInput_files files) ;; peopleInput_change
  | DownloadClick => downloadButton_click
  | Submit => form_submit
  | Tick id r => interval_callback id r
  | UploadProgress event => xhr_upload_onprogress event
  | ReadyStateChange xhr => xhr_onreadystatechange xhr
  end.

(** The page after a sequence of events; an exception thrown by one
    listener ends that listener only. *)
Definition run (events : list Event) (p : Page) : Page :=
  fold_left (fun p e => after (listener e) p) events p.

(** ** Vocabulary of the properties *)

Definition generic_failure : string := "Processing failed.".

(** The request has settled. *)
Definition terminal (xhr : XHR) : Prop := readyState xhr = DONE.


(** HTTP 200 with body status ["ok"]. *)
Definition successful (xhr : XHR) (v : JS.Value) : Prop :=
  terminal xhr /\ status xhr = 200%Z /\ responseText xhr = Json v /\
  JS.field v "status" = JS.Str "ok".


(** Does the object have the property at all? *)
Definition has_prop (v : JS.Value) (k : string) : bool :=
  match v with
  | JS.Obj props => existsb (fun kv => String.eqb (fst kv) k) props
  | _ => false
  end.

(** The message of a failed request: the body's [message] when the body
    parsed and the field is truthy and converts to text, the generic text
    otherwise. *)
Definition failure_message (t : ResponseText) : string :=
  match t with
  | NotJson _ => generic_failure
  | Json (JS.Undefined | JS.Null) => generic_failure
  | Json v =>
      match JS.text_of (JS.or (JS.field v "message") (JS.Str generic_failure)) with
      | Some text => text
      | None => generic_failure
      end
  end.

(** Can [v] be written to [textContent]?  Every string, number, boolean,
    [null] and [undefined] can; an object with an own [toString]
    property, or an array holding one, cannot. *)
Definition displayable (v : JS.Value) : bool :=
  match JS.text_of v with
  | Some _ => true
  | None => false
  end.

(** The text a result display gets for the body's value [v]. *)
Definition result_text (v : JS.Value) : option string :=
  JS.text_of (JS.nullish v (JS.Str "-")).

(** The bodies for which a settled HTTP 200 response makes the completion
    callback throw. *)
Definition escapes (t : ResponseText) : bool :=
  match t with
  | NotJson _ | Json JS.Null | Json JS.Undefined => true
  | Json v =>
      if JS.is_string (JS.field v "status") "ok"
      then negb (displayable (JS.nullish (JS.field v "row_count") (JS.Str "-")) &&
                 displayable (JS.nullish (JS.field v "output_path") (JS.Str "-")))
      else negb (displayable (JS.or (JS.field v "message") (JS.Str generic_failure)))
  end.

(** The events that can reach the script between [send] and the settled
    response: ticks, upload progress, earlier ready states, and the user
    choosing files or clicking the download control. *)
Definition in_flight (e : Event) : bool :=
  match e with
  | Submit => false
  | ReadyStateChange xhr => negb (readyState xhr =? DONE)%Z
  | _ => true
  end.

(** The interval [id] firing once for each draw of [rs], in order. *)
Definition ticks (id : positive) (rs : list Q) (p : Page) : Page :=
  fold_left (fun p r => after (interval_callback id r) p) rs p.

(** A body of which the HTTP 200 branch cannot read [status]: no JSON
    text, or a value without properties. *)
Definition unreadable (t : ResponseText) : bool :=
  match t with
  | NotJson _ | Json JS.Null | Json JS.Undefined => true
  | Json _ => false
  end.

(** The events whose listener returns at its first test: an upload
    progress without computable length, a ready state before [DONE]. *)
Definition ignored (e : Event) : bool :=
  match e with
  | UploadProgress event => negb (lengthComputable event)
  | ReadyStateChange xhr => negb (readyState xhr =? DONE)%Z
  | _ => false
  end.

(** An in-flight event as the browser delivers it: a tick draws from
    [0,1); an upload progress with computable length has a [total] that
    is not zero, of which [loaded] is a part. *)
Definition delivered (e : Event) : Prop :=
  in_flight e = true /\
  match e with
  | Tick _ r => is_random r
  | UploadProgress event =>
      lengthComputable event = true ->
      (0 < total event)%N /\ (loaded event <= total event)%N
  | _ => True
  end.

(** Every running interval holds a simulated value between 5 and 90. *)
Definition simulated_in_range (p : Page) : Prop :=
  forall id i, intervals p !! id = Some i ->
               (5 <= closure_progress i)%Q /\ (closure_progress i <= 90)%Q.

(** The label a [change] listener writes for the chosen [files]. *)
Definition shown_name (files : list File) : string :=
  match files with
  | [] => "No file selected"
  | f :: _ => if String.eqb (name f) "" then "No file selected" else name f
  end.

(** The request [form_submit] sends for the first file of each input. *)
Definition process_request (sales_file people_file : File) : Request :=
  {| method := "POST"; url := "/process"; async := true;
     formData := [("sales_file", sales_file); ("people_file", people_file)] |}.

(** A page before any submission, with both files chosen. *)
Definition ready_page : Page :=
  {| salesInput_files := [ {| name := "sales.csv" |} ];
     peopleInput_files := [ {| name := "people.csv" |} ];
     salesName_textContent := "sales.csv";
     peopleName_textContent := "people.csv";
     statusText_textContent := "";
     progressFill_width := 0;
     rowCount_textContent := "-";
     outputPath_textContent := "-";
     downloadButton_disabled := true;
     runButton_disabled := false;
     downloadUrl := JS.Null;
     progressTimer := None;
     intervals := ∅;
     sent := [];
     location_href := "" |}.

(** The same page with a request in flight. *)
Definition waiting_page : Page := after form_submit ready_page.

(** Responses used as examples below. *)
Definition response_example : XHR :=
  {| readyState := DONE; status := 200;
     responseText :=
       Json (JS.Obj [("status", JS.Str "ok"); ("row_count", JS.Num "42");
                     ("output_path", JS.Str "/out/result.csv");
                     ("download_url", JS.Str "/download/result.csv")]) |}.

Definition response_without_url : XHR :=
  {| readyState := DONE; status := 200;
     responseText := Json (JS.Obj [("status", JS.Str "ok")]) |}.

Definition response_disk_full : XHR :=
  {| readyState := DONE; status := 500;
     responseText := Json (JS.Obj [("message", JS.Str "disk full")]) |}.

Definition response_empty_message : XHR :=
  {| readyState := DONE; status := 500;
     responseText := Json (JS.Obj [("message", JS.Str "")]) |}.


(** A value [JSON.parse] can return whose conversion to text throws. *)
Definition unconvertible : JS.Value := JS.Obj [("toString", JS.Num "0")].

Definition response_unconvertible_row_count : XHR :=
  {| readyState := DONE; status := 200;
     responseText :=
       Json (JS.Obj [("status", JS.Str "ok"); ("row_count", unconvertible);
                     ("download_url", JS.Str "/download/result.csv")]) |}.

Definition response_unconvertible_message (http_status : Z) : XHR :=
  {| readyState := DONE; status := http_status;
     responseText :=
       Json (JS.Obj [("status", JS.Str "error"); ("message", unconvertible)]) |}.

(** * Properties *)

(** ** Submission *)

(** C3.  A submission with either file input empty issues no request: the
    listener sets the status text to the prompt and changes nothing else,
    so the submit control keeps its state (it is not disabled by the
    listener), no interval is started and the progress bar is untouched. *)
Theorem submit_missing_file_prompts (p : Page) :
  salesInput_files p = [] \/ peopleInput_files p = [] ->
  form_submit p = (Normal tt, set_statusText "Please select both files." p) /\
  let p' := after form_submit p in
  sent p' = sent p /\
  statusText_textContent p' = "Please select both files." /\
  runButton_disabled p' = runButton_disabled p /\
  (runButton_disabled p = false -> runButton_disabled p' = false) /\
  intervals p' = intervals p /\
  progressTimer p' = progressTimer p /\
  progressFill_width p' = progressFill_width p.
Proof.
  intros H.
  assert (E : form_submit p = (Normal tt, set_statusText "Please select both files." p)).
  { unfold form_submit, bind, read, assign.
    destruct H as [H|H]; rewrite H; [reflexivity|].
    destruct (salesInput_files p); reflexivity. }
  split; [exact E|].
  unfold after. rewrite E. simpl. repeat split; auto.
Qed.

Lemma submit_missing_file_prompts_witness :
  let p := set_peopleInput_files [] ready_page in
  (salesInput_files p = [] \/ peopleInput_files p = []) /\
  sent (after form_submit p) = [] /\
  statusText_textContent (after form_submit p) = "Please select both files." /\
  runButton_disabled (after form_submit p) = false.
Proof.
  assert (H : salesInput_files (set_peopleInput_files [] ready_page) = [] \/
              peopleInput_files (set_peopleInput_files [] ready_page) = [])
    by (right; reflexivity).
  split; [exact H|].
  destruct (submit_missing_file_prompts _ H) as [_ (Hs & Ht & Hr & _)].
  split; [exact Hs|]. split; [exact Ht|]. exact Hr.
Defined.

(** C9.  A submission with both files chosen starts by clearing the
    previous result: both result displays show the placeholder, the
    download reference is [null] and the download control is disabled. *)
Theorem submit_clears_previous_result (p : Page) (f g : File) (fs gs : list File) :
  salesInput_files p = f :: fs ->
  peopleInput_files p = g :: gs ->
  let p' := after form_submit p in
  rowCount_textContent p' = "-" /\
  outputPath_textContent p' = "-" /\
  downloadUrl p' = JS.Null /\
  downloadButton_disabled p' = true /\
  after resetOutput p =
    set_downloadUrl JS.Null
      (set_downloadButton_disabled true (set_outputPath "-" (set_rowCount "-" p))).
Proof.
  intros Hf Hg. unfold after, form_submit, bind, read. rewrite Hf, Hg.
  repeat split; reflexivity.
Qed.

Lemma submit_clears_previous_result_witness :
  let p := set_downloadButton_disabled false
             (set_downloadUrl (JS.Str "/download/old.csv")
                (set_outputPath "/out/old.csv" (set_rowCount "7" ready_page))) in
  rowCount_textContent p = "7" /\
  rowCount_textContent (after form_submit p) = "-" /\
  outputPath_textContent (after form_submit p) = "-" /\
  downloadUrl (after form_submit p) = JS.Null /\
  downloadButton_disabled (after form_submit p) = true.
Proof.
  split; [reflexivity|].
  destruct (submit_clears_previous_result
              (set_downloadButton_disabled false
                 (set_downloadUrl (JS.Str "/download/old.csv")
                    (set_outputPath "/out/old.csv" (set_rowCount "7" ready_page))))
              {| name := "sales.csv" |} {| name := "people.csv" |} [] []
              eq_refl eq_refl) as (H1 & H2 & H3 & H4 & _).
  repeat split; assumption.
Defined.

(** ** The settled request *)

(** Unfolds the completion callback on a settled request. *)
Ltac settle p :=
  cbv [after completion xhr_onreadystatechange stopProgress clearInterval
       try_catch JSON_parse get throw ret setProgress set_style_width
       set_textContent bind assign read];
  simpl; destruct (progressTimer p); simpl.

Lemma not_200 (s : Z) : s <> 200%Z -> negb (s =? 200)%Z = true.
Proof. intros H. apply negb_true_iff, Z.eqb_neq, H. Qed.

(** C1, on the code.  A settled HTTP 200 response whose body is no JSON
    text makes the completion callback throw the parser's [SyntaxError]:
    the status text, the output-path display and the progress bar stay as
    they were, and no failure message is shown.  A body that is the JSON
    text [null] throws a [TypeError] the same way.  Under any other HTTP
    status both are caught and the generic message is shown. *)
Theorem unparseable_200_throws (p : Page) (text : string) :
  let ok := {| readyState := DONE; status := 200; responseText := NotJson text |} in
  let null := {| readyState := DONE; status := 200; responseText := Json JS.Null |} in
  let bad := {| readyState := DONE; status := 500; responseText := NotJson text |} in
  completion (xhr_onreadystatechange ok) p = Throw SyntaxError /\
  statusText_textContent (after (xhr_onreadystatechange ok) p) = statusText_textContent p /\
  outputPath_textContent (after (xhr_onreadystatechange ok) p) = outputPath_textContent p /\
  progressFill_width (after (xhr_onreadystatechange ok) p) = progressFill_width p /\
  runButton_disabled (after (xhr_onreadystatechange ok) p) = false /\
  completion (xhr_onreadystatechange null) p = Throw TypeError /\
  outputPath_textContent (after (xhr_onreadystatechange null) p) = outputPath_textContent p /\
  completion (xhr_onreadystatechange bad) p = Normal tt /\
  outputPath_textContent (after (xhr_onreadystatechange bad) p) = generic_failure.
Proof.
  settle p; repeat split; reflexivity.
Qed.


Lemma has_prop_false (v : JS.Value) (k : string) :
  has_prop v k = false -> JS.field v k = JS.Undefined.
Proof.
  destruct v; simpl; auto.
  induction props as [|[k' w] rest IH]; simpl; auto.
  destruct (String.eqb k' k); simpl; [discriminate|exact IH].
Qed.

Lemma shown_name_spec (files : list File) :
  JS.text_of (JS.or (first_name files) (JS.Str "No file selected"))
  = Some (shown_name files).
Proof.
  destruct files as [|f files]; [reflexivity|].
  unfold shown_name, first_name, JS.or. simpl.
  destruct (String.eqb (name f) ""); reflexivity.
Qed.

Lemma salesInput_change_effect (p : Page) :
  salesInput_change p = (Normal tt, set_salesName (shown_name (salesInput_files p)) p).
Proof.
  unfold salesInput_change, bind, read, set_textContent.
  rewrite shown_name_spec. reflexivity.
Qed.

Lemma peopleInput_change_effect (p : Page) :
  peopleInput_change p = (Normal tt, set_peopleName (shown_name (peopleInput_files p)) p).
Proof.
  unfold peopleInput_change, bind, read, set_textContent.
  rewrite shown_name_spec. reflexivity.
Qed.

(** A click writes the window's address or nothing. *)
Lemma click_effect (p : Page) :
  after downloadButton_click p = p \/
  exists t, after downloadButton_click p = set_location_href t p.
Proof.
  unfold after, downloadButton_click, bind, read, set_href.
  destruct (JS.to_boolean (downloadUrl p)); [|left; reflexivity].
  destruct (JS.to_string (downloadUrl p)) as [t|]; [right; exists t|left]; reflexivity.
Qed.

Lemma failure_message_string (v : JS.Value) (s : string) :
  JS.field v "message" = JS.Str s -> s <> "" -> failure_message (Json v) = s.
Proof.
  intros H Hs. destruct v; try discriminate.
  unfold failure_message, JS.or. rewrite H. simpl.
  destruct (String.eqb_spec s ""); [contradiction|reflexivity].
Qed.

Lemma failure_message_falsy (v : JS.Value) :
  JS.to_boolean (JS.field v "message") = false ->
  failure_message (Json v) = generic_failure.
Proof.
  intros H. destruct v; try reflexivity.
  unfold failure_message, JS.or. rewrite H. reflexivity.
Qed.

Lemma failure_message_truthy (v : JS.Value) :
  JS.to_boolean (JS.field v "message") = true ->
  failure_message (Json v) =
    match JS.to_string (JS.field v "message") with
    | Some text => text
    | None => generic_failure
    end.
Proof.
  intros H. destruct v; try discriminate.
  unfold failure_message, JS.or. rewrite H.
  destruct (JS.field (JS.Obj props) "message"); try discriminate; reflexivity.
Qed.

(** Destructs the conversions of body values a goal decides on. *)
Ltac convert :=
  repeat match goal with
         | |- context [match JS.text_of ?x with _ => _ end] =>
             destruct (JS.text_of x); cbv beta iota
         end.

(** The failure branch for a status other than 200, on any page. *)
Lemma failed_status_effect (p : Page) (xhr : XHR) :
  terminal xhr -> status xhr <> 200%Z ->
  let p' := after (xhr_onreadystatechange xhr) p in
  completion (xhr_onreadystatechange xhr) p = Normal tt /\
  progressFill_width p' = 0%Q /\
  runButton_disabled p' = false /\
  statusText_textContent p' = "Error." /\
  outputPath_textContent p' = failure_message (responseText xhr) /\
  rowCount_textContent p' = rowCount_textContent p /\
  downloadButton_disabled p' = downloadButton_disabled p /\
  downloadUrl p' = downloadUrl p.
Proof.
  destruct xhr as [rs st body]. unfold terminal. simpl. intros -> Hst.
  cbv [after completion xhr_onreadystatechange bind JSON_parse get ret throw
       try_catch set_textContent failure_message generic_failure].
  cbn [readyState status responseText]. rewrite (not_200 _ Hst).
  destruct body as [text|v]; [|destruct v]; cbv beta iota; convert;
    settle p; repeat split; reflexivity.
Qed.



(** What the success branch writes before it converts a body value. *)
Lemma successful_prefix (p : Page) (xhr : XHR) (v : JS.Value) :
  successful xhr v ->
  let p' := after (xhr_onreadystatechange xhr) p in
  progressFill_width p' = 100%Q /\
  runButton_disabled p' = false /\
  statusText_textContent p' = "Completed.".
Proof.
  destruct xhr as [rs st body]. unfold successful, terminal. simpl.
  intros (-> & -> & -> & Hs).
  cbv [after completion xhr_onreadystatechange bind JSON_parse get ret set_textContent].
  cbn [readyState status responseText].
  destruct v; try discriminate. rewrite Hs. cbv beta iota. convert.
  all: settle p; repeat split; reflexivity.
Qed.

(** The success branch when both result values convert to text. *)
Lemma successful_effect (p : Page) (xhr : XHR) (v : JS.Value) (rc op : string) :
  successful xhr v ->
  result_text (JS.field v "row_count") = Some rc ->
  result_text (JS.field v "output_path") = Some op ->
  let p' := after (xhr_onreadystatechange xhr) p in
  completion (xhr_onreadystatechange xhr) p = Normal tt /\
  rowCount_textContent p' = rc /\
  outputPath_textContent p' = op /\
  downloadUrl p' = JS.field v "download_url" /\
  downloadButton_disabled p' = false.
Proof.
  destruct xhr as [rs st body]. unfold successful, terminal, result_text. simpl.
  intros (-> & -> & -> & Hs) Hrc Hop.
  cbv [after completion xhr_onreadystatechange bind JSON_parse get ret set_textContent].
  cbn [readyState status responseText].
  destruct v; try discriminate. rewrite Hs, Hrc, Hop.
  settle p; repeat split; reflexivity.
Qed.


(** Values whose conversion throws: under HTTP 200 the exception leaves
    the callback, under any other status it is caught. *)
Lemma unconvertible_values :
  JS.to_string unconvertible = None /\
  JS.to_string (JS.Arr [JS.Num "1"; unconvertible]) = None /\
  completion (xhr_onreadystatechange response_unconvertible_row_count) waiting_page
    = Throw TypeError /\
  downloadButton_disabled
    (after (xhr_onreadystatechange response_unconvertible_row_count) waiting_page) = true /\
  completion (xhr_onreadystatechange (response_unconvertible_message 200)) waiting_page
    = Throw TypeError /\
  outputPath_textContent
    (after (xhr_onreadystatechange (response_unconvertible_message 200)) waiting_page) = "-" /\
  completion (xhr_onreadystatechange (response_unconvertible_message 500)) waiting_page
    = Normal tt /\
  outputPath_textContent
    (after (xhr_onreadystatechange (response_unconvertible_message 500)) waiting_page)
    = "Processing failed.".
Proof.
  repeat split; vm_compute; reflexivity.
Qed.


(** C2 as stated fails: a successful response without [download_url]
    still enables the download control. *)
Lemma download_enabled_without_url :
  successful response_without_url (JS.Obj [("status", JS.Str "ok")]) /\
  ~ (downloadButton_disabled
       (after (xhr_onreadystatechange response_without_url) waiting_page) = false <->
     has_prop (JS.Obj [("status", JS.Str "ok")]) "download_url" = true).
Proof.
  split.
  - repeat split; reflexivity.
  - intros [H _].
    assert (E : downloadButton_disabled
                  (after (xhr_onreadystatechange response_without_url) waiting_page) = false)
      by (vm_compute; reflexivity).
    specialize (H E). vm_compute in H. discriminate H.
Qed.

(** C2, amended.  After a successful response the progress bar shows 100
    and the submit control is enabled; when [row_count] and [output_path]
    convert to text, as every string, number, boolean, [null] and absent
    value does, the download control is enabled, whether or not the body
    has a [download_url]; the download reference is the body's
    [download_url], so without one it is [undefined] and a click on the
    enabled control changes nothing. *)
Theorem success_enables_controls (p : Page) (xhr : XHR) (v : JS.Value) :
  successful xhr v ->
  let p' := after (xhr_onreadystatechange xhr) p in
  progressFill_width p' = 100%Q /\
  runButton_disabled p' = false /\
  (forall rc op,
     result_text (JS.field v "row_count") = Some rc ->
     result_text (JS.field v "output_path") = Some op ->
     downloadButton_disabled p' = false /\
     downloadUrl p' = JS.field v "download_url" /\
     (has_prop v "download_url" = false ->
      downloadUrl p' = JS.Undefined /\ after downloadButton_click p' = p')).
Proof.
  intros H p'. destruct (successful_prefix p xhr v H) as (Hw & Hr & _).
  split; [exact Hw|]. split; [exact Hr|]. intros rc op Hrc Hop.
  destruct (successful_effect p xhr v rc op H Hrc Hop) as (_ & _ & _ & Hu & Hd).
  fold p' in Hu, Hd.
  split; [exact Hd|]. split; [exact Hu|].
  intros Ha. apply has_prop_false in Ha. split.
  - rewrite Hu. exact Ha.
  - unfold after at 1, downloadButton_click, bind, read.
    rewrite Hu, Ha. reflexivity.
Qed.

Lemma success_enables_controls_witness :
  successful response_without_url (JS.Obj [("status", JS.Str "ok")]) /\
  progressFill_width (after (xhr_onreadystatechange response_without_url) waiting_page) = 100%Q /\
  runButton_disabled (after (xhr_onreadystatechange response_without_url) waiting_page) = false /\
  downloadButton_disabled (after (xhr_onreadystatechange response_without_url) waiting_page) = false.
Proof.
  assert (H : successful response_without_url (JS.Obj [("status", JS.Str "ok")]))
    by (repeat split; reflexivity).
  split; [exact H|].
  destruct (success_enables_controls waiting_page _ _ H) as (H1 & H2 & H3).
  destruct (H3 "-" "-" eq_refl eq_refl) as (H4 & _).
  repeat split; assumption.
Defined.



(** C4 as stated fails: a body that parses and contains a [message] that
    is the empty string gets the generic text, not its [message]. *)
Lemma empty_message_replaced :
  terminal response_empty_message /\
  status response_empty_message <> 200%Z /\
  has_prop (JS.Obj [("message", JS.Str "")]) "message" = true /\
  JS.field (JS.Obj [("message", JS.Str "")]) "message" = JS.Str "" /\
  outputPath_textContent
    (after (xhr_onreadystatechange response_empty_message) waiting_page)
    = "Processing failed." /\
  Some (outputPath_textContent
          (after (xhr_onreadystatechange response_empty_message) waiting_page))
    <> JS.text_of (JS.field (JS.Obj [("message", JS.Str "")]) "message").
Proof.
  split; [reflexivity|]. split; [discriminate|].
  split; [reflexivity|]. split; [reflexivity|].
  split; [vm_compute; reflexivity|].
  vm_compute. discriminate.
Qed.

(** C4, amended.  A settled response with an HTTP status other than 200,
    whatever its body, resets the progress bar to 0, re-enables the submit
    control and sets the status text to "Error."; the message shown is
    the body's [message] when the body parses and that field is truthy
    and converts to text (a non-empty string, in particular), and the
    generic failure message otherwise: body not parseable, no [message],
    a [message] that is empty, [null], [false] or zero, or one whose
    conversion throws. *)
Theorem failed_status_shows_error (p : Page) (xhr : XHR) :
  terminal xhr ->
  status xhr <> 200%Z ->
  let p' := after (xhr_onreadystatechange xhr) p in
  completion (xhr_onreadystatechange xhr) p = Normal tt /\
  progressFill_width p' = 0%Q /\
  runButton_disabled p' = false /\
  statusText_textContent p' = "Error." /\
  (forall v s, responseText xhr = Json v -> JS.field v "message" = JS.Str s ->
               s <> "" -> outputPath_textContent p' = s) /\
  (forall v text, responseText xhr = Json v ->
                  JS.to_boolean (JS.field v "message") = true ->
                  JS.to_string (JS.field v "message") = Some text ->
                  outputPath_textContent p' = text) /\
  (forall v, responseText xhr = Json v ->
             JS.to_boolean (JS.field v "message") = true ->
             JS.to_string (JS.field v "message") = None ->
             outputPath_textContent p' = generic_failure) /\
  (forall v, responseText xhr = Json v -> JS.to_boolean (JS.field v "message") = false ->
             outputPath_textContent p' = generic_failure) /\
  (forall text, responseText xhr = NotJson text ->
                outputPath_textContent p' = generic_failure).
Proof.
  intros Ht Hs.
  destruct (failed_status_effect p xhr Ht Hs) as (Hc & Hw & Hr & Hst & Hm & _).
  split; [exact Hc|]. split; [exact Hw|]. split; [exact Hr|]. split; [exact Hst|].
  repeat split.
  - intros v s Hb Hf Hne. rewrite Hm, Hb. apply failure_message_string; assumption.
  - intros v text Hb Hf Hc'. rewrite Hm, Hb, (failure_message_truthy v Hf), Hc'. reflexivity.
  - intros v Hb Hf Hc'. rewrite Hm, Hb, (failure_message_truthy v Hf), Hc'. reflexivity.
  - intros v Hb Hf. rewrite Hm, Hb. apply failure_message_falsy; assumption.
  - intros text Hb. rewrite Hm, Hb. reflexivity.
Qed.

Lemma failed_status_shows_error_witness :
  statusText_textContent (after (xhr_onreadystatechange response_disk_full) waiting_page)
    = "Error." /\
  outputPath_textContent (after (xhr_onreadystatechange response_disk_full) waiting_page)
    = "disk full" /\
  progressFill_width (after (xhr_onreadystatechange response_disk_full) waiting_page)
    = 0%Q /\
  runButton_disabled (after (xhr_onreadystatechange response_disk_full) waiting_page)
    = false.
Proof.
  assert (Hs : status response_disk_full <> 200%Z) by discriminate.
  destruct (failed_status_shows_error waiting_page response_disk_full eq_refl Hs)
    as (_ & Hw & Hr & Hst & Hm & _).
  split; [exact Hst|].
  split; [apply (Hm _ "disk full" eq_refl eq_refl); discriminate|].
  split; [exact Hw|exact Hr].
Defined.



(** ** While the request is in flight *)






(** ** The progress bar *)

Lemma Qmax_gt (x y : Q) : (x < y)%Q -> Qmax x y = y.
Proof.
  intros H. unfold Qmax, GenericMinMax.gmax.
  rewrite (proj1 (Qlt_alt x y) H). reflexivity.
Qed.

Lemma Qmin_lt (x y : Q) : (y < x)%Q -> Qmin x y = y.
Proof.
  intros H. unfold Qmin, GenericMinMax.gmin.
  rewrite (proj1 (Qgt_alt x y) H). reflexivity.
Qed.

(** [setProgress] writes a width between 0 and 100, whatever it is given. *)
Lemma setProgress_clamped (q : Q) (p : Page) :
  progressFill_width (after (setProgress (JS.Fin q)) p) = Qmin 100 (Qmax 0 q) /\
  (0 <= progressFill_width (after (setProgress (JS.Fin q)) p))%Q /\
  (progressFill_width (after (setProgress (JS.Fin q)) p) <= 100)%Q.
Proof.
  split; [reflexivity|]. simpl. split.
  - apply Q.min_glb; [discriminate|apply Q.le_max_l].
  - apply Q.le_min_l.
Qed.

(** Inside the range the clamp of [setProgress] changes nothing. *)
Lemma clamp_inside (q : Q) : (0 < q)%Q -> (q < 100)%Q -> Qmin 100 (Qmax 0 q) = q.
Proof.
  intros H0 H1. rewrite (Qmax_gt 0 q H0). apply Qmin_lt, H1.
Qed.

Lemma ratio_le_1 (a b : N) :
  (0 < b)%N -> (a <= b)%N ->
  (0 <= inject_Z (Z.of_N a) / inject_Z (Z.of_N b))%Q /\
  (inject_Z (Z.of_N a) / inject_Z (Z.of_N b) <= 1)%Q.
Proof.
  intros Hb Hab.
  assert (Hq : (0 < inject_Z (Z.of_N b))%Q).
  { change 0%Q with (inject_Z 0). rewrite <- Zlt_Qlt. lia. }
  split.
  - apply Qle_shift_div_l; [exact Hq|].
    rewrite Qmult_0_l. change 0%Q with (inject_Z 0). rewrite <- Zle_Qle. lia.
  - apply Qle_shift_div_r; [exact Hq|].
    rewrite Qmult_1_l. rewrite <- Zle_Qle. lia.
Qed.

(** C7.  An upload-progress event with computable length (so a [total]
    that is not zero) sets the progress bar to [max(5, loaded / total *
    40)] capped at 100: never below the floor 5, exactly 20 when half of
    the body is sent, and, [loaded] being a part of [total], the uncapped
    value itself, never above 40. *)
Theorem upload_progress_scaled (p : Page) (event : ProgressEvent) :
  lengthComputable event = true ->
  (0 < total event)%N ->
  let ratio := (inject_Z (Z.of_N (loaded event)) / inject_Z (Z.of_N (total event)))%Q in
  let p' := after (xhr_upload_onprogress event) p in
  progressFill_width p' = Qmin 100 (Qmax 5 (ratio * 40)) /\
  (5 <= progressFill_width p')%Q /\
  ((loaded event <= total event)%N ->
   progressFill_width p' = Qmax 5 (ratio * 40) /\
   (progressFill_width p' <= 40)%Q) /\
  (ratio == 1 # 2 -> progressFill_width p' == 20)%Q /\
  statusText_textContent p' = "Uploading...".
Proof.
  intros Hc Ht ratio p'.
  assert (Hlo : (5 <= Qmax 5 (ratio * 40))%Q) by apply Q.le_max_l.
  assert (E : progressFill_width p' = Qmin 100 (Qmax 5 (ratio * 40)) /\
              statusText_textContent p' = "Uploading...").
  { unfold p', after, xhr_upload_onprogress. rewrite Hc.
    unfold JS.div. destruct (total event) as [|t] eqn:Et; [lia|].
    simpl.
    change (inject_Z (Z.of_N (loaded event)) / inject_Z (Z.pos t) * 40)%Q
      with (ratio * 40)%Q.
    rewrite (Qmax_gt 0 (Qmax 5 (ratio * 40))) by lra.
    split; reflexivity. }
  destruct E as [E Es]. rewrite E.
  split; [reflexivity|]. split; [apply Q.min_glb; [discriminate|exact Hlo]|].
  split; [|split; [|exact Es]].
  - intros Hl. destruct (ratio_le_1 _ _ Ht Hl) as [H0 H1]. fold ratio in H0, H1.
    assert (Hhi : (Qmax 5 (ratio * 40) <= 40)%Q).
    { apply Q.max_lub; [discriminate|]. lra. }
    rewrite Qmin_lt by lra. split; [reflexivity|exact Hhi].
  - intros Hr.
    assert (E20 : (Qmax 5 (ratio * 40) == 20)%Q).
    { rewrite Q.max_r; [rewrite Hr; reflexivity|]. rewrite Hr. discriminate. }
    rewrite Q.min_r; [exact E20|]. rewrite E20. discriminate.
Qed.

Lemma upload_progress_scaled_witness :
  (progressFill_width
     (after (xhr_upload_onprogress {| lengthComputable := true; loaded := 1; total := 2 |})
        waiting_page) == 20)%Q /\
  (progressFill_width
     (after (xhr_upload_onprogress {| lengthComputable := true; loaded := 0; total := 2 |})
        waiting_page) == 5)%Q.
Proof.
  split.
  - destruct (upload_progress_scaled waiting_page
                {| lengthComputable := true; loaded := 1; total := 2 |} eq_refl eq_refl)
      as (_ & _ & _ & H & _).
    apply H. reflexivity.
  - destruct (upload_progress_scaled waiting_page
                {| lengthComputable := true; loaded := 0; total := 2 |} eq_refl eq_refl)
      as (_ & _ & H & _).
    destruct H as [H _]; [discriminate|]. rewrite H. reflexivity.
Defined.

Lemma next_progress_bounds (a r : Q) :
  is_random r -> (a <= 90)%Q ->
  (a <= next_progress a r)%Q /\ (next_progress a r <= 90)%Q.
Proof.
  intros [H0 H1] Ha. unfold next_progress. split.
  - apply Q.min_glb; [exact Ha|lra].
  - apply Q.le_min_l.
Qed.

Lemma tick_effect (id : positive) (r a : Q) (p : Page) :
  progress_of id p = Some a ->
  let p' := after (interval_callback id r) p in
  progress_of id p' = Some (next_progress a r) /\
  progressFill_width p' = Qmin 100 (Qmax 0 (next_progress a r)) /\
  statusText_textContent p' = "Processing...".
Proof.
  unfold progress_of, after, interval_callback, bind, read.
  destruct (intervals p !! id) as [i|]; simpl; [|discriminate].
  intros [= <-]. rewrite lookup_insert_eq. repeat split; reflexivity.
Qed.

Lemma ticks_invariant (id : positive) (rs : list Q) :
  Forall is_random rs ->
  forall (p : Page) (a : Q),
    progress_of id p = Some a -> (a <= 90)%Q ->
    exists b, progress_of id (ticks id rs p) = Some b /\ (a <= b)%Q /\ (b <= 90)%Q.
Proof.
  induction 1 as [|r rs Hr _ IH]; intros p a Ha Hle.
  - exists a. split; [exact Ha|]. split; [apply Qle_refl|exact Hle].
  - destruct (tick_effect id r a p Ha) as (Hn & _).
    destruct (next_progress_bounds a r Hr Hle) as [H1 H2].
    destruct (IH _ _ Hn H2) as (b & Hb & Hab & Hb90).
    exists b. split; [exact Hb|]. split; [|exact Hb90].
    apply Qle_trans with (next_progress a r); assumption.
Qed.

Lemma startProgress_effect (p : Page) :
  let p0 := after startProgress p in
  let id := fresh (dom (intervals p)) in
  progressTimer p0 = Some id /\
  intervals p0 !! id = Some {| closure_progress := 5; interval_delay := 500 |} /\
  progressFill_width p0 = 5%Q /\
  statusText_textContent p0 = "Uploading...".
Proof.
  unfold after, startProgress, bind, setInterval. simpl.
  split; [reflexivity|]. split; [apply lookup_insert_eq|]. split; reflexivity.
Qed.

(** C8.  [startProgress] starts the simulated value at 5, under an
    interval of 500 milliseconds; each tick replaces it by [min(90, previous + r * 8)] for a draw [r] in [0,1), so
    along any run of ticks the value never decreases and never exceeds
    90; the width it writes is that value, and every width [setProgress]
    writes lies between 0 and 100. *)
Theorem simulated_progress_monotone (p : Page) (rs : list Q) :
  Forall is_random rs ->
  let p0 := after startProgress p in
  exists id,
    progressTimer p0 = Some id /\
    intervals p0 !! id = Some {| closure_progress := 5; interval_delay := 500 |} /\
    progressFill_width p0 = 5%Q /\
    (forall n r, rs !! n = Some r ->
       exists previous,
         let before := ticks id (take n rs) p0 in
         let p' := after (interval_callback id r) before in
         progress_of id before = Some previous /\
         progress_of id p' = Some (next_progress previous r) /\
         next_progress previous r = Qmin 90 (previous + r * 8) /\
         (5 <= previous)%Q /\
         (previous <= next_progress previous r)%Q /\
         (next_progress previous r <= 90)%Q /\
         progressFill_width p' = next_progress previous r) /\
    (forall (q : Q) (p1 : Page),
       (0 <= progressFill_width (after (setProgress (JS.Fin q)) p1))%Q /\
       (progressFill_width (after (setProgress (JS.Fin q)) p1) <= 100)%Q).
Proof.
  intros Hrs p0.
  destruct (startProgress_effect p) as (Ht & Hi & Hw & _). fold p0 in Ht, Hi, Hw.
  exists (fresh (dom (intervals p))).
  split; [exact Ht|]. split; [exact Hi|]. split; [exact Hw|]. split.
  - intros n r Hn.
    assert (Hr : is_random r) by (eapply Forall_lookup_1; eassumption).
    assert (Hpre : Forall is_random (take n rs)) by (apply Forall_take; exact Hrs).
    assert (Hi' : progress_of (fresh (dom (intervals p))) p0 = Some 5%Q)
      by (unfold progress_of; rewrite Hi; reflexivity).
    destruct (ticks_invariant (fresh (dom (intervals p))) _ Hpre p0 5%Q Hi')
      as (a & Ha & H5 & H90); [discriminate|].
    exists a. intros before p'.
    destruct (tick_effect (fresh (dom (intervals p))) r a before Ha) as (Hn' & Hw' & _).
    destruct (next_progress_bounds a r Hr H90) as [H1 H2].
    split; [exact Ha|]. split; [exact Hn'|]. split; [reflexivity|].
    split; [exact H5|]. split; [exact H1|]. split; [exact H2|].
    fold p' in Hw'. rewrite Hw'. apply clamp_inside; lra.
  - intros q p1. apply setProgress_clamped.
Qed.

Lemma simulated_progress_monotone_witness :
  progress_of 1 (ticks 1 [1 # 2; 3 # 4] (after startProgress ready_page))
    = Some (Qmin 90 (Qmin 90 (5 + (1 # 2) * 8) + (3 # 4) * 8)) /\
  (Qmin 90 (5 + (1 # 2) * 8) <= Qmin 90 (Qmin 90 (5 + (1 # 2) * 8) + (3 # 4) * 8))%Q /\
  (Qmin 90 (Qmin 90 (5 + (1 # 2) * 8) + (3 # 4) * 8) <= 90)%Q.
Proof.
  assert (Hrs : Forall is_random [1 # 2; 3 # 4]%Q).
  { repeat constructor; discriminate. }
  destruct (simulated_progress_monotone ready_page [1 # 2; 3 # 4]%Q Hrs)
    as (id & Ht & _ & _ & Hticks & _).
  assert (Hid : id = 1%positive).
  { assert (E : progressTimer (after startProgress ready_page) = Some 1%positive)
      by (vm_compute; reflexivity).
    rewrite E in Ht. congruence. }
  subst id.
  destruct (Hticks 1%nat (3 # 4)%Q eq_refl) as (a & Ha & Hb & _ & _ & Hmono & H90 & _).
  assert (Ea : a = Qmin 90 (5 + (1 # 2) * 8)).
  { assert (E : progress_of 1 (ticks 1 (take 1 [1 # 2; 3 # 4]%Q)
                                     (after startProgress ready_page))
                = Some (Qmin 90 (5 + (1 # 2) * 8)))
      by (vm_compute; reflexivity).
    rewrite E in Ha. congruence. }
  subst a. split; [exact Hb|]. split; [exact Hmono|exact H90].
Defined.

(** * Further properties of the script *)

Set Warnings "-clear-no-such-hyp".

(** ** The timer *)

Lemma stopProgress_effect (p : Page) :
  completion stopProgress p = Normal tt /\
  after stopProgress p =
    match progressTimer p with
    | Some id => set_progressTimer None (set_intervals (delete id (intervals p)) p)
    | None => p
    end.
Proof.
  unfold completion, after, stopProgress, bind, read.
  destruct (progressTimer p); split; reflexivity.
Qed.

(** X1.  [stopProgress] never throws, clears the interval [progressTimer]
    names and forgets the handle; with no handle it leaves the page as it
    is, so calling it again changes nothing. *)
Theorem stopProgress_idempotent (p : Page) :
  completion stopProgress p = Normal tt /\
  progressTimer (after stopProgress p) = None /\
  (forall id, progressTimer p = Some id ->
              intervals (after stopProgress p) !! id = None) /\
  (progressTimer p = None -> after stopProgress p = p) /\
  after stopProgress (after stopProgress p) = after stopProgress p.
Proof.
  destruct (stopProgress_effect p) as [Hc E].
  assert (Hn : progressTimer (after stopProgress p) = None).
  { rewrite E. destruct (progressTimer p) eqn:Ep; [reflexivity|exact Ep]. }
  split; [exact Hc|]. split; [exact Hn|]. split; [|split].
  - intros id Hid. rewrite E, Hid. simpl. apply lookup_delete_eq.
  - intros Hid. rewrite E, Hid. reflexivity.
  - destruct (stopProgress_effect (after stopProgress p)) as [_ E'].
    rewrite E', Hn. reflexivity.
Qed.

(** What a settled request does to the timer and the submit control,
    whichever branch it takes, thrown exception included. *)
Lemma settle_timer_effect (p : Page) (xhr : XHR) :
  terminal xhr ->
  let p' := after (xhr_onreadystatechange xhr) p in
  progressTimer p' = None /\
  intervals p' = intervals (after stopProgress p) /\
  runButton_disabled p' = false /\
  sent p' = sent p /\
  salesInput_files p' = salesInput_files p /\
  peopleInput_files p' = peopleInput_files p.
Proof.
  destruct xhr as [rs st body]. unfold terminal. simpl. intros ->.
  cbv [after xhr_onreadystatechange bind JSON_parse get ret throw try_catch
       set_textContent]. simpl.
  destruct (st =? 200)%Z; simpl; destruct body as [text|v]; [| destruct v | | destruct v];
    simpl;
    repeat match goal with
           | |- context [JS.is_string ?a ?b] => destruct (JS.is_string a b); simpl
           end;
    convert;
    cbv [after completion xhr_onreadystatechange stopProgress clearInterval
         try_catch JSON_parse get throw ret setProgress set_style_width
         bind assign read];
    simpl; destruct (progressTimer p) eqn:Ep; simpl;
    repeat split; solve [reflexivity | exact Ep].
Qed.

(** X2.  Once the request has settled, whatever its status and body, the
    interval [progressTimer] named is gone and the handle forgotten, the
    submit control is enabled, and a later tick of that interval leaves
    the page as it is. *)
Theorem settled_request_stops_ticks (p : Page) (xhr : XHR) (id : positive) :
  terminal xhr ->
  progressTimer p = Some id ->
  let p' := after (xhr_onreadystatechange xhr) p in
  progressTimer p' = None /\
  intervals p' = delete id (intervals p) /\
  runButton_disabled p' = false /\
  (forall r, after (interval_callback id r) p' = p').
Proof.
  intros Ht Hid p'.
  destruct (settle_timer_effect p xhr Ht) as (Hn & Hi & Hr & _).
  destruct (stopProgress_effect p) as [_ E]. rewrite E, Hid in Hi. simpl in Hi.
  fold p' in Hn, Hi, Hr.
  split; [exact Hn|]. split; [exact Hi|]. split; [exact Hr|].
  intros r. unfold after, interval_callback, bind, read.
  rewrite Hi, lookup_delete_eq. reflexivity.
Qed.

Lemma settled_request_stops_ticks_witness :
  progressTimer (after (xhr_onreadystatechange response_disk_full) waiting_page) = None /\
  after (interval_callback 1 (1 # 2))
    (after (xhr_onreadystatechange response_disk_full) waiting_page)
  = after (xhr_onreadystatechange response_disk_full) waiting_page.
Proof.
  assert (Hid : progressTimer waiting_page = Some 1%positive) by (vm_compute; reflexivity).
  destruct (settled_request_stops_ticks waiting_page response_disk_full 1 eq_refl Hid)
    as (Hn & _ & _ & Hticks).
  split; [exact Hn|exact (Hticks (1 # 2)%Q)].
Defined.

(** Settles a goal on whether the completion callback throws, once the
    completion and the test on the body are evaluated. *)
Ltac decide_throw :=
  split;
  [ split;
    [ intros Hx;
      first [ discriminate Hx
            | intros (H1 & H2 & H3); first [discriminate H3 | contradiction] ]
    | intros Hn; first [ reflexivity | exfalso; apply Hn; repeat split; reflexivity ] ]
  | intros e He; first [ discriminate He | injection He as <-; reflexivity ] ].

(** X3.  The completion callback throws exactly on a settled HTTP 200
    response whose body is no JSON text ([SyntaxError]), has no
    properties to read, or holds a value to display that does not convert
    to text ([TypeError]): [message] when the status is not "ok",
    [row_count] or [output_path] when it is.  Before [DONE] and under any
    other HTTP status it completes normally, whatever the body. *)
Theorem callback_throws_iff (p : Page) (xhr : XHR) :
  (completion (xhr_onreadystatechange xhr) p = Normal tt <->
   ~ (readyState xhr = DONE /\ status xhr = 200%Z /\
      escapes (responseText xhr) = true)) /\
  (forall e, completion (xhr_onreadystatechange xhr) p = Throw e ->
             e = match responseText xhr with
                 | NotJson _ => SyntaxError
                 | Json _ => TypeError
                 end).
Proof.
  destruct xhr as [rs st body].
  cbv [completion xhr_onreadystatechange bind JSON_parse get ret throw try_catch
       set_textContent escapes displayable generic_failure].
  cbn [readyState status responseText].
  destruct (rs =? DONE)%Z eqn:Ers;
    [apply Z.eqb_eq in Ers; subst rs|apply Z.eqb_neq in Ers; rename Ers into Hrs];
    cbn [negb]; cbv beta iota.
  2:{ simpl. decide_throw. }
  destruct (st =? 200)%Z eqn:Est;
    [apply Z.eqb_eq in Est; subst st|apply Z.eqb_neq in Est; rename Est into Hst];
    cbn [negb]; cbv beta iota.
  - destruct body as [text|v]; [|destruct v]; cbv beta iota;
      repeat match goal with
             | |- context [JS.is_string ?a ?b] =>
                 destruct (JS.is_string a b); cbn [negb]; cbv beta iota
             end;
      convert; settle p; decide_throw.
  - destruct body as [text|v]; [|destruct v]; cbv beta iota; convert;
      settle p; decide_throw.
Qed.

(** X4.  Events whose listener returns at its first test change nothing:
    after any sequence of upload-progress events without computable
    length and of ready states before [DONE], the page is as it was. *)
Theorem ignored_events_change_nothing (events : list Event) (p : Page) :
  forallb ignored events = true -> run events p = p.
Proof.
  revert p. induction events as [|e events IH]; intros p H; [reflexivity|].
  simpl in H. apply andb_true_iff in H as [He Hes].
  unfold run in *. simpl.
  assert (E : after (listener e) p = p).
  { destruct e as [files|files| | |id r|event|xhr]; simpl in He; try discriminate.
    - unfold after, listener, xhr_upload_onprogress.
      destruct (lengthComputable event); [discriminate|reflexivity].
    - unfold after, listener, xhr_onreadystatechange. rewrite He. reflexivity. }
  rewrite E. apply IH, Hes.
Qed.

Lemma ignored_events_change_nothing_witness :
  run [ReadyStateChange {| readyState := 2; status := 200; responseText := NotJson "" |};
       UploadProgress {| lengthComputable := false; loaded := 10; total := 0 |};
       ReadyStateChange {| readyState := 3; status := 500; responseText := Json JS.Null |}]
      waiting_page = waiting_page.
Proof.
  apply ignored_events_change_nothing. reflexivity.
Defined.

(** ** The file inputs *)

(** X5.  A [change] listener writes into its own label the name of the
    first chosen file, or "No file selected" when no file is chosen or
    that name is empty; further files are not shown, and nothing else on
    the page is written. *)
Theorem change_shows_first_name (p : Page) :
  after salesInput_change p = set_salesName (shown_name (salesInput_files p)) p /\
  after peopleInput_change p = set_peopleName (shown_name (peopleInput_files p)) p /\
  (salesInput_files p = [] ->
   salesName_textContent (after salesInput_change p) = "No file selected") /\
  (peopleInput_files p = [] ->
   peopleName_textContent (after peopleInput_change p) = "No file selected") /\
  (forall f rest, salesInput_files p = f :: rest -> name f <> "" ->
                  salesName_textContent (after salesInput_change p) = name f) /\
  (forall f rest, peopleInput_files p = f :: rest -> name f <> "" ->
                  peopleName_textContent (after peopleInput_change p) = name f).
Proof.
  assert (Es : after salesInput_change p
               = set_salesName (shown_name (salesInput_files p)) p).
  { unfold after. rewrite salesInput_change_effect. reflexivity. }
  assert (Ep : after peopleInput_change p
               = set_peopleName (shown_name (peopleInput_files p)) p).
  { unfold after. rewrite peopleInput_change_effect. reflexivity. }
  split; [exact Es|]. split; [exact Ep|]. rewrite Es, Ep. simpl.
  split; [intros ->; reflexivity|]. split; [intros ->; reflexivity|].
  split; intros f rest -> Hn; simpl;
    (destruct (String.eqb_spec (name f) ""); [contradiction|reflexivity]).
Qed.

(** ** Submission *)

Lemma submit_effect (p : Page) (f g : File) (fs gs : list File) :
  salesInput_files p = f :: fs ->
  peopleInput_files p = g :: gs ->
  let id := fresh (dom (intervals p)) in
  form_submit p =
    (Normal tt,
     set_sent (sent p ++ [process_request f g])%list
       (set_progressTimer (Some id)
          (set_intervals
             (<[id := {| closure_progress := 5; interval_delay := 500 |}]> (intervals p))
             (set_statusText "Uploading..."
                (set_width 5
                   (set_runButton_disabled true
                      (set_downloadUrl JS.Null
                         (set_downloadButton_disabled true
                            (set_outputPath "-" (set_rowCount "-" p)))))))))).
Proof.
  intros Hf Hg. unfold form_submit, bind, read. rewrite Hf, Hg. reflexivity.
Qed.

(** X6.  A submission with both files chosen sends exactly one request:
    an asynchronous POST to [/process] whose form data has the part
    [sales_file] with the first sales file and the part [people_file]
    with the first people file, further chosen files being left out.  It
    disables the submit control, shows "Uploading..." with the bar at 5,
    keeps the handle of the interval it started, and leaves the file
    inputs, their labels and the window's address as they were. *)
Theorem submit_sends_one_request (p : Page) (f g : File) (fs gs : list File) :
  salesInput_files p = f :: fs ->
  peopleInput_files p = g :: gs ->
  let p' := after form_submit p in
  completion form_submit p = Normal tt /\
  sent p' = (sent p ++ [ {| method := "POST"; url := "/process"; async := true;
                            formData := [("sales_file", f); ("people_file", g)] |} ])%list /\
  runButton_disabled p' = true /\
  statusText_textContent p' = "Uploading..." /\
  progressFill_width p' = 5%Q /\
  (exists id, progressTimer p' = Some id /\ intervals p !! id = None /\
              intervals p' !! id
              = Some {| closure_progress := 5; interval_delay := 500 |}) /\
  salesInput_files p' = salesInput_files p /\
  peopleInput_files p' = peopleInput_files p /\
  salesName_textContent p' = salesName_textContent p /\
  peopleName_textContent p' = peopleName_textContent p /\
  location_href p' = location_href p.
Proof.
  intros Hf Hg p'. pose proof (submit_effect p f g fs gs Hf Hg) as E.
  unfold p', completion, after. rewrite E. simpl.
  repeat split; try reflexivity.
  exists (fresh (dom (intervals p))). split; [reflexivity|]. split.
  - apply not_elem_of_dom, is_fresh.
  - apply lookup_insert_eq.
Qed.

Lemma submit_sends_one_request_witness :
  sent (after form_submit
          (set_salesInput_files [ {| name := "a.csv" |}; {| name := "b.csv" |} ] ready_page))
  = [ {| method := "POST"; url := "/process"; async := true;
         formData := [("sales_file", {| name := "a.csv" |});
                      ("people_file", {| name := "people.csv" |})] |} ] /\
  runButton_disabled
    (after form_submit
       (set_salesInput_files [ {| name := "a.csv" |}; {| name := "b.csv" |} ] ready_page))
  = true.
Proof.
  destruct (submit_sends_one_request
              (set_salesInput_files [ {| name := "a.csv" |}; {| name := "b.csv" |} ] ready_page)
              {| name := "a.csv" |} {| name := "people.csv" |} [ {| name := "b.csv" |} ] []
              eq_refl eq_refl) as (_ & Hs & Hr & _).
  split; [exact Hs|exact Hr].
Defined.

(** ** While the request is in flight *)

(** What no in-flight event writes: the download reference, the timer
    handle, the set of running intervals and the requests sent. *)
Lemma in_flight_keeps (e : Event) (p : Page) :
  in_flight e = true ->
  downloadUrl (after (listener e) p) = downloadUrl p /\
  progressTimer (after (listener e) p) = progressTimer p /\
  dom (intervals (after (listener e) p)) = dom (intervals p) /\
  sent (after (listener e) p) = sent p.
Proof.
  destruct e as [files|files| | |id r|event|xhr]; simpl; intros H; try discriminate.
  - unfold after, bind, assign. rewrite salesInput_change_effect. repeat split; reflexivity.
  - unfold after, bind, assign. rewrite peopleInput_change_effect. repeat split; reflexivity.
  - destruct (click_effect p) as [E|[t E]]; rewrite E; repeat split; reflexivity.
  - unfold after, interval_callback, bind, read.
    destruct (intervals p !! id) as [i|] eqn:Ei; simpl; repeat split; try reflexivity.
    apply dom_insert_lookup_L. rewrite Ei. eauto.
  - unfold after, xhr_upload_onprogress.
    destruct (lengthComputable event); [|repeat split; reflexivity].
    destruct (JS.div (loaded event) (total event)); repeat split; reflexivity.
  - unfold after, xhr_onreadystatechange. rewrite H. repeat split; reflexivity.
Qed.

Lemma run_in_flight_keeps (events : list Event) (p : Page) :
  forallb in_flight events = true ->
  downloadUrl (run events p) = downloadUrl p /\
  progressTimer (run events p) = progressTimer p /\
  dom (intervals (run events p)) = dom (intervals p) /\
  sent (run events p) = sent p.
Proof.
  revert p. induction events as [|e events IH]; intros p H; simpl in *.
  - repeat split; reflexivity.
  - apply andb_true_iff in H as [He Hes].
    destruct (IH (after (listener e) p) Hes) as (H1 & H2 & H3 & H4).
    destruct (in_flight_keeps e p He) as (K1 & K2 & K3 & K4).
    unfold run in *. simpl. repeat split; congruence.
Qed.

(** X7.  From a valid submission until its request settles the download
    reference is [null], whatever it was before: a click on the download
    control during that time leaves the page as it is. *)
Theorem click_in_flight_does_nothing
    (p : Page) (f g : File) (fs gs : list File) (events : list Event) :
  salesInput_files p = f :: fs ->
  peopleInput_files p = g :: gs ->
  forallb in_flight events = true ->
  let now := run events (after form_submit p) in
  downloadUrl now = JS.Null /\
  after downloadButton_click now = now.
Proof.
  intros Hf Hg Hev now.
  destruct (run_in_flight_keeps events (after form_submit p) Hev) as (Hu & _).
  fold now in Hu.
  assert (E : downloadUrl now = JS.Null).
  { rewrite Hu. unfold after. rewrite (submit_effect p f g fs gs Hf Hg). reflexivity. }
  split; [exact E|].
  unfold after, downloadButton_click, bind, read. rewrite E. reflexivity.
Qed.

Lemma click_in_flight_does_nothing_witness :
  location_href
    (after downloadButton_click
       (run [Tick 1 (1 # 4)]
          (after form_submit
             (set_downloadUrl (JS.Str "/download/old.csv") ready_page)))) = "".
Proof.
  destruct (click_in_flight_does_nothing
              (set_downloadUrl (JS.Str "/download/old.csv") ready_page)
              {| name := "sales.csv" |} {| name := "people.csv" |} [] []
              [Tick 1 (1 # 4)] eq_refl eq_refl eq_refl) as [_ E].
  rewrite E. vm_compute. reflexivity.
Defined.

(** X8.  After a successful response whose [row_count] and
    [output_path] convert to text, a click on the download control hands
    the body's [download_url] to [window.location.href] when it is a
    non-empty string (or another truthy value, as the text it converts
    to) and writes nothing else; when it is absent, [null], empty,
    [false] or zero the click leaves the page as it is. *)
Theorem click_after_success (p : Page) (xhr : XHR) (v : JS.Value) (rc op : string) :
  successful xhr v ->
  result_text (JS.field v "row_count") = Some rc ->
  result_text (JS.field v "output_path") = Some op ->
  let p' := after (xhr_onreadystatechange xhr) p in
  (forall u, JS.field v "download_url" = JS.Str u -> u <> "" ->
             after downloadButton_click p' = set_location_href u p') /\
  (forall t, JS.to_boolean (JS.field v "download_url") = true ->
             JS.to_string (JS.field v "download_url") = Some t ->
             after downloadButton_click p' = set_location_href t p') /\
  (JS.to_boolean (JS.field v "download_url") = false ->
   after downloadButton_click p' = p').
Proof.
  intros H Hrc Hop p'.
  destruct (successful_effect p xhr v rc op H Hrc Hop) as (_ & _ & _ & Hu & _).
  fold p' in Hu.
  assert (Ht : forall t, JS.to_boolean (JS.field v "download_url") = true ->
               JS.to_string (JS.field v "download_url") = Some t ->
               after downloadButton_click p' = set_location_href t p').
  { intros t Hb Hs. unfold after, downloadButton_click, bind, read, set_href.
    rewrite Hu, Hb, Hs. reflexivity. }
  split; [|split; [exact Ht|]].
  - intros u Hf Hne. apply Ht; rewrite Hf; simpl; [|reflexivity].
    destruct (String.eqb_spec u ""); [contradiction|reflexivity].
  - intros Hb. unfold after, downloadButton_click, bind, read. rewrite Hu, Hb. reflexivity.
Qed.

Lemma click_after_success_witness :
  location_href
    (after downloadButton_click
       (after (xhr_onreadystatechange response_example) waiting_page))
  = "/download/result.csv" /\
  after downloadButton_click
    (after (xhr_onreadystatechange response_without_url) waiting_page)
  = after (xhr_onreadystatechange response_without_url) waiting_page.
Proof.
  assert (H1 : successful response_example
                 (JS.Obj [("status", JS.Str "ok"); ("row_count", JS.Num "42");
                          ("output_path", JS.Str "/out/result.csv");
                          ("download_url", JS.Str "/download/result.csv")]))
    by (repeat split; reflexivity).
  assert (H2 : successful response_without_url (JS.Obj [("status", JS.Str "ok")]))
    by (repeat split; reflexivity).
  split.
  - destruct (click_after_success waiting_page _ _ "42" "/out/result.csv" H1 eq_refl eq_refl)
      as (Hs & _).
    rewrite (Hs "/download/result.csv" eq_refl); [reflexivity|discriminate].
  - destruct (click_after_success waiting_page _ _ "-" "-" H2 eq_refl eq_refl)
      as (_ & _ & Hn).
    apply Hn. reflexivity.
Defined.

(** X9.  One submission attempt leaves no interval behind: after a valid
    submit, any in-flight events and the settled response, whichever
    branch the callback takes, the timer handle is forgotten and the
    running intervals are those that ran before the submit; the submit
    control is enabled again and exactly one request was sent. *)
Theorem attempt_leaves_no_interval
    (p : Page) (f g : File) (fs gs : list File) (events : list Event) (xhr : XHR) :
  salesInput_files p = f :: fs ->
  peopleInput_files p = g :: gs ->
  forallb in_flight events = true ->
  terminal xhr ->
  let p' := after (xhr_onreadystatechange xhr) (run events (after form_submit p)) in
  progressTimer p' = None /\
  dom (intervals p') = dom (intervals p) /\
  (intervals p = ∅ -> intervals p' = ∅) /\
  runButton_disabled p' = false /\
  sent p' = (sent p ++ [process_request f g])%list.
Proof.
  intros Hf Hg Hev Ht p'.
  pose proof (submit_effect p f g fs gs Hf Hg) as E.
  destruct (run_in_flight_keeps events (after form_submit p) Hev) as (_ & Kt & Kd & Ks).
  destruct (settle_timer_effect (run events (after form_submit p)) xhr Ht)
    as (Hn & Hi & Hr & Hs & _).
  fold p' in Hn, Hi, Hr, Hs.
  destruct (stopProgress_effect (run events (after form_submit p))) as [_ Es].
  assert (E1 : progressTimer (after form_submit p) = Some (fresh (dom (intervals p))))
    by (unfold after; rewrite E; reflexivity).
  assert (E2 : dom (intervals (after form_submit p))
               = {[fresh (dom (intervals p))]} ∪ dom (intervals p))
    by (unfold after; rewrite E; simpl; apply dom_insert_L).
  assert (E3 : sent (after form_submit p) = (sent p ++ [process_request f g])%list)
    by (unfold after; rewrite E; reflexivity).
  rewrite E1 in Kt. rewrite E2 in Kd. rewrite E3 in Ks.
  rewrite Es, Kt in Hi. simpl in Hi.
  assert (Hd : dom (intervals p') = dom (intervals p)).
  { rewrite Hi, dom_delete_L, Kd.
    pose proof (is_fresh (dom (intervals p))). set_solver. }
  split; [exact Hn|]. split; [exact Hd|]. split; [|split].
  - intros He. apply dom_empty_iff_L. rewrite Hd, He. apply dom_empty_L.
  - exact Hr.
  - rewrite Hs. exact Ks.
Qed.

Lemma attempt_leaves_no_interval_witness :
  intervals
    (after (xhr_onreadystatechange response_example)
       (run [Tick 1 (1 # 2)] (after form_submit ready_page))) = ∅ /\
  progressTimer
    (after (xhr_onreadystatechange response_example)
       (run [Tick 1 (1 # 2)] (after form_submit ready_page))) = None.
Proof.
  destruct (attempt_leaves_no_interval ready_page
              {| name := "sales.csv" |} {| name := "people.csv" |} [] []
              [Tick 1 (1 # 2)] response_example eq_refl eq_refl eq_refl eq_refl)
    as (Hn & _ & He & _).
  split; [apply He; reflexivity|exact Hn].
Defined.

(** X10.  [progressTimer] holds one handle only: when a second
    submission starts before the first request has settled, the first
    interval is never cleared.  After both requests have settled it still
    runs with its own simulated value, and its next tick writes
    "Processing..." over the final status text. *)
Theorem second_submit_orphans_first_interval
    (p : Page) (f g : File) (fs gs : list File) (x1 x2 : XHR) :
  salesInput_files p = f :: fs ->
  peopleInput_files p = g :: gs ->
  terminal x1 ->
  terminal x2 ->
  let first := fresh (dom (intervals p)) in
  let both := after form_submit (after form_submit p) in
  let settled := after (xhr_onreadystatechange x2) (after (xhr_onreadystatechange x1) both) in
  progressTimer both <> Some first /\
  progressTimer settled = None /\
  progress_of first settled = Some 5%Q /\
  (forall r, statusText_textContent (after (interval_callback first r) settled)
             = "Processing...") /\
  sent settled = (sent p ++ [process_request f g; process_request f g])%list.
Proof.
  intros Hf Hg Ht1 Ht2 first both settled.
  pose proof (submit_effect p f g fs gs Hf Hg) as E1.
  set (p1 := after form_submit p) in *.
  assert (Hi1 : intervals p1
                = <[first := {| closure_progress := 5; interval_delay := 500 |}]> (intervals p))
    by (unfold p1, after; rewrite E1; reflexivity).
  assert (Hs1 : sent p1 = (sent p ++ [process_request f g])%list)
    by (unfold p1, after; rewrite E1; reflexivity).
  assert (Hf1 : salesInput_files p1 = f :: fs)
    by (unfold p1, after; rewrite E1; exact Hf).
  assert (Hg1 : peopleInput_files p1 = g :: gs)
    by (unfold p1, after; rewrite E1; exact Hg).
  pose proof (submit_effect p1 f g fs gs Hf1 Hg1) as E2.
  set (second := fresh (dom (intervals p1))) in *.
  assert (Hne : second <> first).
  { intros Heq. pose proof (is_fresh (dom (intervals p1))) as Hfr.
    fold second in Hfr. apply Hfr. rewrite Heq, Hi1, dom_insert_L. set_solver. }
  assert (Ht : progressTimer both = Some second)
    by (unfold both, after; rewrite E2; reflexivity).
  assert (Hi2 : intervals both
                = <[second := {| closure_progress := 5; interval_delay := 500 |}]> (intervals p1))
    by (unfold both, after; rewrite E2; reflexivity).
  assert (Hs2 : sent both = (sent p1 ++ [process_request f g])%list)
    by (unfold both, after; rewrite E2; reflexivity).
  destruct (settle_timer_effect both x1 Ht1) as (Hn1 & Hx1 & _ & Hsx1 & _).
  destruct (stopProgress_effect both) as [_ Es1]. rewrite Es1, Ht in Hx1. simpl in Hx1.
  set (mid := after (xhr_onreadystatechange x1) both) in *.
  destruct (settle_timer_effect mid x2 Ht2) as (Hn2 & Hx2 & _ & Hsx2 & _).
  destruct (stopProgress_effect mid) as [_ Es2]. rewrite Es2, Hn1 in Hx2.
  fold settled in Hn2, Hx2, Hsx2.
  assert (Hp : progress_of first settled = Some 5%Q).
  { unfold progress_of. rewrite Hx2, Hx1, Hi2, Hi1.
    rewrite lookup_delete_ne by exact Hne.
    rewrite lookup_insert_ne by exact Hne.
    rewrite lookup_insert_eq. reflexivity. }
  split; [rewrite Ht; congruence|]. split; [exact Hn2|]. split; [exact Hp|]. split.
  - intros r. destruct (tick_effect first r 5%Q settled Hp) as (_ & _ & Hst). exact Hst.
  - rewrite Hsx2, Hsx1, Hs2, Hs1, <- app_assoc. reflexivity.
Qed.

Lemma second_submit_orphans_first_interval_witness :
  statusText_textContent
    (after (xhr_onreadystatechange response_example)
       (after (xhr_onreadystatechange response_example)
          (after form_submit (after form_submit ready_page)))) = "Completed." /\
  statusText_textContent
    (after (interval_callback 1 (1 # 2))
       (after (xhr_onreadystatechange response_example)
          (after (xhr_onreadystatechange response_example)
             (after form_submit (after form_submit ready_page))))) = "Processing...".
Proof.
  split; [vm_compute; reflexivity|].
  destruct (second_submit_orphans_first_interval ready_page
              {| name := "sales.csv" |} {| name := "people.csv" |} [] []
              response_example response_example eq_refl eq_refl eq_refl eq_refl)
    as (_ & _ & _ & Htick & _).
  assert (Hid : fresh (dom (intervals ready_page)) = 1%positive) by (vm_compute; reflexivity).
  rewrite Hid in Htick. exact (Htick (1 # 2)%Q).
Defined.

(** ** The progress bar *)

Lemma upload_progress_effect (p : Page) (event : ProgressEvent) :
  lengthComputable event = true ->
  (0 < total event)%N ->
  let ratio := (inject_Z (Z.of_N (loaded event)) / inject_Z (Z.of_N (total event)))%Q in
  after (xhr_upload_onprogress event) p
  = set_statusText "Uploading..." (set_width (Qmin 100 (Qmax 5 (ratio * 40))) p).
Proof.
  intros Hc Ht ratio.
  assert (Hlo : (5 <= Qmax 5 (ratio * 40))%Q) by apply Q.le_max_l.
  unfold after, xhr_upload_onprogress. rewrite Hc.
  unfold JS.div. destruct (total event) as [|t] eqn:Et; [lia|].
  simpl.
  change (inject_Z (Z.of_N (loaded event)) / inject_Z (Z.pos t) * 40)%Q
    with (ratio * 40)%Q.
  rewrite (Qmax_gt 0 (Qmax 5 (ratio * 40))) by lra. reflexivity.
Qed.

Lemma scaled_bounds (a b : N) :
  (0 < b)%N -> (a <= b)%N ->
  let w := Qmin 100 (Qmax 5 (inject_Z (Z.of_N a) / inject_Z (Z.of_N b) * 40)) in
  (5 <= w)%Q /\ (w <= 40)%Q.
Proof.
  intros Hb Hab w. destruct (ratio_le_1 a b Hb Hab) as [H0 H1].
  set (ratio := (inject_Z (Z.of_N a) / inject_Z (Z.of_N b))%Q) in *.
  assert (Hhi : (Qmax 5 (ratio * 40) <= 40)%Q).
  { apply Q.max_lub; [discriminate|]. lra. }
  split.
  - apply Q.min_glb; [discriminate|apply Q.le_max_l].
  - apply Qle_trans with (Qmax 5 (ratio * 40)); [apply Q.le_min_r|exact Hhi].
Qed.

Lemma delivered_keeps_range (e : Event) (p : Page) :
  delivered e ->
  simulated_in_range p ->
  (5 <= progressFill_width p)%Q /\ (progressFill_width p <= 90)%Q ->
  simulated_in_range (after (listener e) p) /\
  (5 <= progressFill_width (after (listener e) p))%Q /\
  (progressFill_width (after (listener e) p) <= 90)%Q.
Proof.
  intros [Hin Hd] Hr Hw.
  destruct e as [files|files| | |id r|event|xhr]; simpl in Hin, Hd; try discriminate.
  - unfold after, listener, bind, assign. rewrite salesInput_change_effect.
    split; [exact Hr|exact Hw].
  - unfold after, listener, bind, assign. rewrite peopleInput_change_effect.
    split; [exact Hr|exact Hw].
  - unfold listener. destruct (click_effect p) as [E|[t E]]; rewrite E;
      (split; [exact Hr|exact Hw]).
  - unfold after, listener, interval_callback, bind, read.
    destruct (intervals p !! id) as [i|] eqn:Ei; simpl; [|split; [exact Hr|exact Hw]].
    destruct (Hr id i Ei) as [H5 H90].
    destruct (next_progress_bounds (closure_progress i) r Hd H90) as [H1 H2].
    assert (H5' : (5 <= next_progress (closure_progress i) r)%Q)
      by (apply Qle_trans with (closure_progress i); assumption).
    split.
    + intros id' i'. simpl. destruct (decide (id' = id)) as [->|Hne].
      * rewrite lookup_insert_eq. intros [= <-]. simpl. split; assumption.
      * rewrite lookup_insert_ne by congruence. apply Hr.
    + destruct (Qle_lt_or_eq _ _ H2) as [Hlt|Heq].
      * rewrite clamp_inside by lra. split; assumption.
      * split; [apply Q.min_glb; [discriminate|]; apply Qle_trans with (next_progress (closure_progress i) r);
                [exact H5'|apply Q.le_max_r]|].
        apply Qle_trans with (Qmax 0 (next_progress (closure_progress i) r));
          [apply Q.le_min_r|]. apply Q.max_lub; [discriminate|exact H2].
  - destruct (lengthComputable event) eqn:Hc.
    + destruct (Hd eq_refl) as [Ht Hl].
      unfold listener. rewrite (upload_progress_effect p event Hc Ht). simpl.
      destruct (scaled_bounds _ _ Ht Hl) as [Hlo Hhi].
      split; [exact Hr|]. split; [exact Hlo|]. lra.
    + unfold after, listener, xhr_upload_onprogress. rewrite Hc.
      split; [exact Hr|exact Hw].
  - unfold after, listener, xhr_onreadystatechange. rewrite Hin.
    split; [exact Hr|exact Hw].
Qed.

(** X11.  While a request is in flight the bar stays between 5 and 90:
    after a valid submit on a page whose running intervals hold values in
    that range (none running, in particular), no sequence of ticks with
    draws in [0,1), upload-progress events with [loaded] within a
    non-zero [total], earlier ready states, file choices and download
    clicks takes it outside, so 100 is only ever written by the settled
    response. *)
Theorem bar_in_flight_between_5_and_90
    (p : Page) (f g : File) (fs gs : list File) (events : list Event) :
  salesInput_files p = f :: fs ->
  peopleInput_files p = g :: gs ->
  simulated_in_range p ->
  Forall delivered events ->
  (5 <= progressFill_width (run events (after form_submit p)))%Q /\
  (progressFill_width (run events (after form_submit p)) <= 90)%Q.
Proof.
  intros Hf Hg Hr Hev.
  pose proof (submit_effect p f g fs gs Hf Hg) as E.
  assert (Hr0 : simulated_in_range (after form_submit p)).
  { unfold after. rewrite E. simpl. intros id i. simpl.
    destruct (decide (id = fresh (dom (intervals p)))) as [->|Hne].
    - rewrite lookup_insert_eq. intros [= <-]. simpl. split; discriminate.
    - rewrite lookup_insert_ne by congruence. apply Hr. }
  assert (Hw0 : (5 <= progressFill_width (after form_submit p))%Q /\
                (progressFill_width (after form_submit p) <= 90)%Q).
  { unfold after. rewrite E. simpl. split; discriminate. }
  clear E Hr. generalize dependent (after form_submit p).
  induction Hev as [|e events He _ IH]; intros q Hr Hw; [exact Hw|].
  destruct (delivered_keeps_range e q He Hr Hw) as [Hr' Hw'].
  unfold run in *. simpl. apply IH; assumption.
Qed.

Lemma bar_in_flight_between_5_and_90_witness :
  (5 <= progressFill_width
          (run [UploadProgress {| lengthComputable := true; loaded := 2; total := 2 |};
                Tick 1 (7 # 8); Tick 1 (7 # 8); DownloadClick]
             (after form_submit ready_page)))%Q /\
  (progressFill_width
     (run [UploadProgress {| lengthComputable := true; loaded := 2; total := 2 |};
           Tick 1 (7 # 8); Tick 1 (7 # 8); DownloadClick]
        (after form_submit ready_page)) <= 90)%Q.
Proof.
  apply (bar_in_flight_between_5_and_90 ready_page
           {| name := "sales.csv" |} {| name := "people.csv" |} [] []);
    [reflexivity|reflexivity| |].
  - intros id i H. change (intervals ready_page) with (∅ : gmap positive Interval) in H.
    rewrite lookup_empty in H. discriminate H.
  - repeat constructor; simpl; try discriminate; try reflexivity.
Defined.

(** X12.  The two writers of the bar overwrite each other: once an
    upload-progress event has reported the whole body sent the bar shows
    40, and the first tick of the attempt's interval then sets it to the
    simulated value, between 5 and 13, so the bar moves back. *)
Theorem tick_after_upload_moves_bar_back
    (p : Page) (f g : File) (fs gs : list File) (event : ProgressEvent) (r : Q) :
  salesInput_files p = f :: fs ->
  peopleInput_files p = g :: gs ->
  lengthComputable event = true ->
  (0 < total event)%N ->
  loaded event = total event ->
  is_random r ->
  let id := fresh (dom (intervals p)) in
  let uploaded := after (xhr_upload_onprogress event) (after form_submit p) in
  let ticked := after (interval_callback id r) uploaded in
  (progressFill_width uploaded == 40)%Q /\
  progress_of id ticked = Some (next_progress 5 r) /\
  (5 <= progressFill_width ticked)%Q /\
  (progressFill_width ticked <= 13)%Q /\
  (progressFill_width ticked < progressFill_width uploaded)%Q.
Proof.
  intros Hf Hg Hc Ht Hl [Hr0 Hr1] id uploaded ticked.
  pose proof (submit_effect p f g fs gs Hf Hg) as E.
  assert (Eu : uploaded
               = set_statusText "Uploading..."
                   (set_width
                      (Qmin 100
                         (Qmax 5 (inject_Z (Z.of_N (loaded event))
                                  / inject_Z (Z.of_N (total event)) * 40)))
                      (after form_submit p)))
    by (apply upload_progress_effect; assumption).
  assert (Hq : (0 < inject_Z (Z.of_N (total event)))%Q).
  { change 0%Q with (inject_Z 0). rewrite <- Zlt_Qlt. lia. }
  assert (Hratio : (inject_Z (Z.of_N (loaded event)) / inject_Z (Z.of_N (total event)) == 1)%Q).
  { rewrite Hl. apply Qmult_inv_r. lra. }
  assert (Hw : (progressFill_width uploaded == 40)%Q).
  { rewrite Eu. simpl. rewrite Hratio.
    rewrite Q.max_r by lra. rewrite Q.min_r by lra. reflexivity. }
  assert (Hp : progress_of id uploaded = Some 5%Q).
  { rewrite Eu. unfold progress_of, after. rewrite E. simpl.
    rewrite lookup_insert_eq. reflexivity. }
  destruct (tick_effect id r 5%Q uploaded Hp) as (Hpt & Hwt & _).
  fold ticked in Hwt, Hpt.
  assert (Hnp : (next_progress 5 r == 5 + r * 8)%Q).
  { unfold next_progress. apply Q.min_r. lra. }
  assert (Et : (progressFill_width ticked == 5 + r * 8)%Q).
  { rewrite Hwt. rewrite Q.max_r by (rewrite Hnp; lra).
    rewrite Q.min_r by (rewrite Hnp; lra). exact Hnp. }
  split; [exact Hw|]. split; [exact Hpt|]. rewrite Et, Hw. repeat split; lra.
Qed.

Lemma tick_after_upload_moves_bar_back_witness :
  (progressFill_width
     (after (interval_callback 1 (1 # 2))
        (after (xhr_upload_onprogress {| lengthComputable := true; loaded := 7; total := 7 |})
           (after form_submit ready_page)))
   < progressFill_width
       (after (xhr_upload_onprogress {| lengthComputable := true; loaded := 7; total := 7 |})
          (after form_submit ready_page)))%Q /\
  (progressFill_width
     (after (xhr_upload_onprogress {| lengthComputable := true; loaded := 7; total := 7 |})
        (after form_submit ready_page)) == 40)%Q.
Proof.
  assert (Hr : is_random (1 # 2)) by (split; [discriminate|reflexivity]).
  destruct (tick_after_upload_moves_bar_back ready_page
              {| name := "sales.csv" |} {| name := "people.csv" |} [] []
              {| lengthComputable := true; loaded := 7; total := 7 |} (1 # 2)
              eq_refl eq_refl eq_refl eq_refl eq_refl Hr) as (Hu & _ & _ & _ & Hlt).
  assert (Hid : fresh (dom (intervals ready_page)) = 1%positive) by (vm_compute; reflexivity).
  rewrite Hid in Hlt. split; [exact Hlt|exact Hu].
Defined.

(** X13.  [setProgress] saturates: a value of 0 or less shows an empty
    bar, a value of 100 or more, [Infinity] included, shows a full bar,
    and a value in between is shown as it is. *)
Theorem setProgress_saturates (q : Q) (p : Page) :
  ((q <= 0)%Q -> progressFill_width (after (setProgress (JS.Fin q)) p) = 0%Q) /\
  ((100 <= q)%Q -> progressFill_width (after (setProgress (JS.Fin q)) p) = 100%Q) /\
  ((0 < q)%Q -> (q < 100)%Q ->
   progressFill_width (after (setProgress (JS.Fin q)) p) = q) /\
  progressFill_width (after (setProgress JS.Infinity) p) = 100%Q.
Proof.
  destruct (setProgress_clamped q p) as [E _]. rewrite E.
  split; [|split; [|split]].
  - intros H. unfold Qmax, GenericMinMax.gmax.
    destruct (0 ?= q)%Q eqn:Ec; try reflexivity.
    rewrite <- Qlt_alt in Ec. lra.
  - intros H. rewrite (Qmax_gt 0 q) by lra.
    unfold Qmin, GenericMinMax.gmin.
    destruct (100 ?= q)%Q eqn:Ec; try reflexivity.
    rewrite <- Qgt_alt in Ec. lra.
  - intros H0 H1. apply clamp_inside; assumption.
  - reflexivity.
Qed.
